(** * pf-status-relay: the PF entity, its monitoring loop and the registry

    A shallow embedding of [pkg/lacp/pf.go] and [pkg/lacp/interface.go].

    - Go [int], [uint8], [uint32] values are [Z]; the constants of the
      vendored netlink package keep their numeric values.
    - A call into netlink is a question to the environment: every function
      takes the answers ([Netlink]) as an argument.
    - Everything a function does to the outside (log entries, VF state
      writes, context cancellation, channel operations, goroutine spawns) is
      recorded, in program order, in a list of [Event]s.
    - A Go function may return, panic, or block for ever: [Outcome].
    - The helpers [isProtocolUp] and [IsFastRate] live in a file of the
      package that is not part of the sources at hand, and [BondSlave] is a
      type of the vendored library: the three are section variables. *)

From stdpp Require Import base gmap list strings pretty.

(** ** Logging ([pkg/log], a [slog] JSON logger) *)

Module log.

Inductive Level := LevelDebug | LevelInfo | LevelWarn | LevelError.

(** The value of a key/value attribute of a log call. *)
Inductive Value :=
| VString (s : string)
| VInt (n : Z)
| VError (err : string).

Record Entry := mkEntry {
  level : Level;
  msg : string;
  attrs : list (string * Value)
}.

Definition Debug := mkEntry LevelDebug.
Definition Info := mkEntry LevelInfo.
Definition Warn := mkEntry LevelWarn.
Definition Error := mkEntry LevelError.

Definition level_eqb (a b : Level) : bool :=
  match a, b with
  | LevelDebug, LevelDebug | LevelInfo, LevelInfo
  | LevelWarn, LevelWarn | LevelError, LevelError => true
  | _, _ => false
  end.

End log.

(** ** The part of [github.com/vishvananda/netlink] the package uses *)

Module netlink.

(** [LinkOperState] *)
Definition OperUp : Z := 6.

(** [BondMode] *)
Definition BOND_MODE_802_3AD : Z := 4.

(** VF link states *)
Definition VF_LINK_STATE_AUTO : Z := 0.
Definition VF_LINK_STATE_ENABLE : Z := 1.
Definition VF_LINK_STATE_DISABLE : Z := 2.

Record VfInfo := mkVfInfo {
  ID : Z;
  LinkState : Z
}.

Section Links.
Context {BondSlave : Type}.

(** The [LinkSlave] interface: a [*BondSlave] or a value of some other
    slave type (named by its [SlaveType]). *)
Inductive LinkSlave :=
| IsBondSlave (s : BondSlave)
| OtherSlave (slaveType : string).

Record LinkAttrs := mkLinkAttrs {
  Name : string;
  Index : Z;
  OperState : Z;
  MasterIndex : Z;
  Slave : option LinkSlave;
  Vfs : list VfInfo
}.

(** The dynamic type behind the [Link] interface. *)
Inductive LinkType :=
| Bond (Mode : Z)
| OtherLink (type : string).

Record Link := mkLink {
  Attrs : LinkAttrs;
  dyn : LinkType
}.

(** [(Link, error)] as returned by [LinkByIndex] and [LinkByName]. *)
Inductive LinkResult :=
| Found (l : Link)
| Failed (err : string).

(** The answers of the kernel to the calls of one step. *)
Record Netlink := mkNetlink {
  LinkByIndex : Z -> LinkResult;
  LinkByName : string -> LinkResult;
  (** [LinkSetVfState link vf state]: [None] is a nil error. *)
  LinkSetVfState : Z -> Z -> Z -> option string
}.
End Links.

Arguments LinkSlave : clear implicits.
Arguments LinkAttrs : clear implicits.
Arguments Link : clear implicits.
Arguments LinkResult : clear implicits.
Arguments Netlink : clear implicits.

End netlink.

(** ** What a call does and how it ends *)

Inductive Event :=
| Log (e : log.Entry)
| SetVfState (link vf state : Z)   (* a call of netlink.LinkSetVfState *)
| Spawn (pf : Z) (stop endChan : nat)   (* go func() { ... }() *)
| Cancel (c : nat)                 (* a call of a context.CancelFunc *)
| Recv (ch : nat)                  (* <-ch *)
| Send (ch : nat).                 (* ch <- struct{}{} *)

Inductive Outcome (A : Type) :=
| Returns (a : A)
| Panics (reason : string)
| Blocks.

Arguments Returns {A} a.
Arguments Panics {A} reason.
Arguments Blocks {A}.

Definition nil_dereference : string :=
  "invalid memory address or nil pointer dereference".
Definition interface_conversion : string :=
  "interface conversion: netlink.Link is not *netlink.Bond".

(** ** Package [lacp] *)

Module lacp.
Import netlink.

Record PF := mkPF {
  Name : string;
  Index : Z;
  OperState : Z;
  MasterIndex : Z;
  Monitoring : bool;
  ctx : option nat;
  cancel : option nat;
  endChan : option nat;
  pollingInterval : Z
}.

Section PFEntity.
Context {BondSlave : Type}.
#[local] Abbreviation Netlink := (netlink.Netlink BondSlave).

(** [fmt.Errorf] with the formats of [Inspect]. *)
Definition err_not_up : string := "link is not up".
Definition err_no_master : string := "no master interface associated".
Definition err_fetch_master (index : Z) (err : string) : string :=
  "failed to fetch master interface with index " +:+ pretty index
    +:+ ": " +:+ err.
Definition err_wrong_mode (name : string) : string :=
  "bond " +:+ name +:+ " does not have mode 802.3ad".

(** [func (p *PF) Inspect() error]: [Returns None] is a nil error. *)
Definition Inspect (nl : Netlink) (p : PF) : Outcome (option string) :=
  if negb (OperState p =? OperUp)%Z then Returns (Some err_not_up)
  else if (MasterIndex p =? 0)%Z then Returns (Some err_no_master)
  else
    match LinkByIndex nl (MasterIndex p) with
    | Failed err => Returns (Some (err_fetch_master (MasterIndex p) err))
    | Found bond =>
        (* bond.( *netlink.Bond ).Mode: a type assertion without the ok form *)
        match dyn bond with
        | OtherLink _ => Panics interface_conversion
        | Bond Mode =>
            if negb (Mode =? BOND_MODE_802_3AD)%Z
            then Returns (Some (err_wrong_mode (netlink.Name (Attrs bond))))
            else Returns None
        end
    end.

(** [func (p *PF) Update() (bool, error)].  The receiver is a pointer,
    [None] being nil; the result carries the PF as the call leaves it. *)
Definition Update (nl : Netlink) (p : option PF)
  : list Event * Outcome (PF * bool * option string) :=
  match p with
  | None => ([], Panics nil_dereference)   (* p.Index *)
  | Some p =>
      match LinkByIndex nl (Index p) with
      | Failed err => ([], Returns (p, false, Some err))
      | Found link =>
          let a := Attrs link in
          let l1 := Log (log.Debug "link state"
                           [("state", log.VInt (netlink.OperState a))]) in
          if (netlink.OperState a =? OperState p)%Z then
            ([l1; Log (log.Debug "PF was not updated"
                         [("interface", log.VString (netlink.Name a))])],
             Returns (p, false, None))
          else
            let p' := {| Name := netlink.Name a;
                         Index := netlink.Index a;
                         OperState := netlink.OperState a;
                         MasterIndex := netlink.MasterIndex a;
                         Monitoring := Monitoring p;
                         ctx := ctx p;
                         cancel := cancel p;
                         endChan := endChan p;
                         pollingInterval := pollingInterval p |} in
            ([l1; Log (log.Info "PF was updated"
                         [("interface", log.VString (Name p'));
                          ("operational state", log.VInt (OperState p'))])],
             Returns (p', true, None))
      end
  end.

End PFEntity.

(** *** The monitoring goroutine of [StartMonitoring] (pf.go, 98-183) *)

(** The variables of the goroutine that live across iterations. *)
Record LoopVars := mkLoopVars {
  lacpUp : bool;
  noVFLog : bool;
  firstDownLog : bool
}.

Definition initial : LoopVars :=
  {| lacpUp := false; noVFLog := true; firstDownLog := true |}.

(** How the body of a [select] case ends: it runs to its end, it leaves
    the [select] with [break], or it leaves the function with [return].
    The first two go round the [for] again. *)
Inductive Flow := Falls | Breaks | Return.

(** What one iteration of the [for] finds ready in its [select]: the ticker
    (with the PF as the goroutine reads it and the answers of the kernel
    for this tick), or [stop.Done()]. *)
Inductive Signal {BondSlave : Type} :=
| Tick (p : PF) (nl : netlink.Netlink BondSlave)
| Done (p : PF).
Arguments Signal : clear implicits.

Section Monitoring.
Context {BondSlave : Type}.
Variable isProtocolUp : BondSlave -> bool.
Variable IsFastRate : BondSlave -> bool.
#[local] Abbreviation Netlink := (netlink.Netlink BondSlave).

Definition vf_info (p : PF) (vf : VfInfo) : Event :=
  Log (log.Debug "vf info"
         [("id", log.VInt (ID vf)); ("state", log.VInt (LinkState vf));
          ("interface", log.VString (Name p))]).

(** The two [for _, vf := range vfs] loops differ in the state they look
    for ([from]), the state they write ([to], logged as [label]) and the
    spelling of the interface key of the error entry ([key]). *)
Fixpoint range_vfs (from to : Z) (label key : string)
    (nl : Netlink) (p : PF) (link : Z) (vfs : list VfInfo) : list Event :=
  match vfs with
  | [] => []
  | vf :: rest =>
      vf_info p vf ::
      (if (LinkState vf =? from)%Z then
         SetVfState link (ID vf) to ::
         match LinkSetVfState nl link (ID vf) to with
         | Some err =>
             [Log (log.Error "failed to set vf link state"
                     [("id", log.VInt (ID vf)); (key, log.VString (Name p));
                      ("error", log.VError err)])]
         | None => []
         end ++
         [Log (log.Info "vf link state was set"
                 [("id", log.VInt (ID vf)); ("state", log.VString label);
                  ("interface", log.VString (Name p))])]
       else []) ++
      range_vfs from to label key nl p link rest
  end.

(** Lines 146-155: bring to auto all VFs whose state is disable. *)
Definition bring_to_auto :=
  range_vfs VF_LINK_STATE_DISABLE VF_LINK_STATE_AUTO "auto" "interace".

(** Lines 164-173: bring to disable all VFs whose state is auto. *)
Definition bring_to_disable :=
  range_vfs VF_LINK_STATE_AUTO VF_LINK_STATE_DISABLE "disable" "interface".

Definition with_noVFLog (b : bool) (v : LoopVars) : LoopVars :=
  {| lacpUp := lacpUp v; noVFLog := b; firstDownLog := firstDownLog v |}.

(** The body of the ticker case (lines 109-177). *)
Definition tick (p : PF) (nl : Netlink) (v : LoopVars)
  : LoopVars * Flow * list Event :=
  match LinkByIndex nl (Index p) with
  | Failed err =>
      (v, Breaks,
       [Log (log.Warn "failed to fetch interface"
               [("interface", log.VString (Name p));
                ("error", log.VError err)])])
  | Found link =>
      let vfs := Vfs (Attrs link) in
      if (length vfs =? 0)%nat then
        if noVFLog v then
          (with_noVFLog false v, Breaks,
           [Log (log.Info "interface has no VFs"
                   [("interface", log.VString (Name p))])])
        else (v, Breaks, [])
      else
        let v := with_noVFLog true v in
        match Slave (Attrs link) with
        | Some (IsBondSlave s) =>
            if isProtocolUp s then
              let '(v, t) :=
                if negb (lacpUp v) then
                  ({| lacpUp := true; noVFLog := noVFLog v;
                      firstDownLog := firstDownLog v |},
                   Log (log.Info "lacp is up"
                          [("interface", log.VString (Name p))]) ::
                   (if negb (IsFastRate s) then
                      [Log (log.Warn "partner is using slow lacp rate"
                              [("interface", log.VString (Name p))])]
                    else []))
                else (v, []) in
              (v, Falls,
               t ++ bring_to_auto nl p (netlink.Index (Attrs link)) vfs)
            else
              let '(v, t) :=
                if lacpUp v || firstDownLog v then
                  ({| lacpUp := false; noVFLog := noVFLog v;
                      firstDownLog := false |},
                   [Log (log.Info "lacp is down"
                           [("interface", log.VString (Name p))])])
                else (v, []) in
              (v, Falls,
               t ++ bring_to_disable nl p (netlink.Index (Attrs link)) vfs)
        | Some (OtherSlave _) =>
            (v, Breaks,
             [Log (log.Error
                     "interface does not have BondSlave type on Slave attribute"
                     [("interface", log.VString (Name p))])])
        | None =>
            (v, Falls,
             [Log (log.Error "interface has no slave attribute"
                     [("interface", log.VString (Name p))])])
        end
  end.

(** The [select] of lines 107-181. *)
Definition select (s : Signal BondSlave) (v : LoopVars)
  : LoopVars * Flow * list Event :=
  match s with
  | Tick p nl => tick p nl v
  | Done p =>
      (v, Return,
       [Log (log.Debug "ctx cancelled"
               [("routine", log.VString "monitoring")])])
  end.

(** The deferred function of lines 99-101, run when the goroutine returns:
    a send on a nil channel never completes. *)
Definition deferred (p : PF) : list Event :=
  match endChan p with
  | Some ch => [Send ch]
  | None => []
  end.

Definition pf_of (s : Signal BondSlave) : PF :=
  match s with Tick p _ => p | Done p => p end.

(** The goroutine on a schedule: [Some v] while it is in its [for] loop
    with variables [v], [None] once it has left the loop. *)
Fixpoint monitor (sigs : list (Signal BondSlave)) (v : LoopVars)
  : option LoopVars * list Event :=
  match sigs with
  | [] => (Some v, [])
  | s :: rest =>
      let '(v', flow, t) := select s v in
      match flow with
      | Return => (None, t ++ deferred (pf_of s))
      | Falls | Breaks =>
          let '(r, t') := monitor rest v' in (r, t ++ t')
      end
  end.

End Monitoring.

(** *** Starting and stopping the goroutine *)

(** A monitoring goroutine: the PF it was started for (the address behind
    the [*PF], which is the key of the PF in the registry) and the context
    [stop] it selects on. *)
Record Goroutine := mkGoroutine {
  owner : Z;
  stop : nat
}.

(** Contexts and channels are numbered as they are made.  [parent] is the
    context tree, [cancelled] the contexts whose cancel function was called,
    [monitors] the monitoring goroutines that have not finished. *)
Record Runtime := mkRuntime {
  next : nat;
  parent : gmap nat nat;
  cancelled : gset nat;
  monitors : list Goroutine
}.

(** [c.Done()] is closed: [c] or one of its ancestors was cancelled. *)
Fixpoint is_done (fuel : nat) (rt : Runtime) (c : nat) : bool :=
  bool_decide (c ∈ cancelled rt) ||
  match fuel with
  | O => false
  | S fuel =>
      match parent rt !! c with
      | Some q => is_done fuel rt q
      | None => false
      end
  end.

Definition live (rt : Runtime) (self : Z) : list Goroutine :=
  filter (fun g => owner g = self) (monitors rt).

(** [func (p *PF) StartMonitoring(ctx context.Context)], up to the spawn. *)
Definition StartMonitoring (rt : Runtime) (self : Z) (ctx0 : nat) (p : PF)
  : Runtime * PF * list Event :=
  if Monitoring p then
    (rt, p,
     [Log (log.Debug "lacp monitoring has already started"
             [("interface", log.VString (Name p))])])
  else
    let stop := next rt in
    let ch := S (next rt) in
    ({| next := S (S (next rt));
        parent := <[stop := ctx0]> (parent rt);
        cancelled := cancelled rt;
        monitors := monitors rt ++ [mkGoroutine self stop] |},
     {| Name := Name p; Index := Index p; OperState := OperState p;
        MasterIndex := MasterIndex p;
        Monitoring := true;
        ctx := Some stop; cancel := Some stop; endChan := Some ch;
        pollingInterval := pollingInterval p |},
     [Log (log.Info "starting lacp monitoring"
             [("interface", log.VString (Name p))]);
      Spawn self stop ch]).

(** Removes the first goroutine of [self] whose context is done: the one
    whose deferred send meets the receive of [StopMonitoring]. *)
Fixpoint join (rt : Runtime) (self : Z) (gs : list Goroutine)
  : option (list Goroutine) :=
  match gs with
  | [] => None
  | g :: rest =>
      if bool_decide (owner g = self) && is_done (next rt) rt (stop g)
      then Some rest
      else option_map (cons g) (join rt self rest)
  end.

(** [func (p *PF) StopMonitoring()]. *)
Definition StopMonitoring (rt : Runtime) (self : Z) (p : PF)
  : list Event * Outcome (Runtime * PF) :=
  if negb (Monitoring p) then ([], Returns (rt, p))
  else
    let l := Log (log.Info "stopping lacp monitoring"
                    [("interface", log.VString (Name p))]) in
    match cancel p with
    | None => ([l], Panics nil_dereference)
    | Some c =>
        let rt1 := {| next := next rt; parent := parent rt;
                      cancelled := {[c]} ∪ cancelled rt;
                      monitors := monitors rt |} in
        match endChan p with
        | None => ([l; Cancel c], Blocks)
        | Some ch =>
            match join rt1 self (monitors rt1) with
            | None => ([l; Cancel c], Blocks)
            | Some gs =>
                ([l; Cancel c; Recv ch],
                 Returns
                   ({| next := next rt1; parent := parent rt1;
                       cancelled := cancelled rt1; monitors := gs |},
                    {| Name := Name p; Index := Index p;
                       OperState := OperState p;
                       MasterIndex := MasterIndex p;
                       Monitoring := false;
                       ctx := ctx p; cancel := cancel p;
                       endChan := endChan p;
                       pollingInterval := pollingInterval p |}))
            end
        end
    end.

(** *** The registry (interface.go) *)

(** [Interfaces.PFs], a [map[int]*PF]: a PF is changed in place through
    its pointer, which the model writes back under the same key. *)
Section Registry.
Context {BondSlave : Type}.
#[local] Abbreviation Netlink := (netlink.Netlink BondSlave).

(** The case [index := <-queue] of the goroutine of [Start] (lines 63-80). *)
Definition on_index (nl : Netlink) (ctx0 : nat) (rt : Runtime)
    (PFs : gmap Z PF) (index : Z)
  : list Event * Outcome (Runtime * gmap Z PF) :=
  let l0 := Log (log.Debug "processing event" [("index", log.VInt index)]) in
  let p := PFs !! index in
  match Update nl p with
  | (t, Panics r) => (l0 :: t, Panics r)
  | (t, Blocks) => (l0 :: t, Blocks)
  | (t, Returns (p, _, Some _)) =>
      (l0 :: t ++
       [Log (log.Error "failed to update link"
               [("interface", log.VString (Name p))])],
       Returns (rt, <[index := p]> PFs))
  | (t, Returns (p, false, None)) =>
      (l0 :: t, Returns (rt, <[index := p]> PFs))
  | (t, Returns (p, true, None)) =>
      match Inspect nl p with
      | Panics r => (l0 :: t, Panics r)
      | Blocks => (l0 :: t, Blocks)
      | Returns (Some err) =>
          let l1 := Log (log.Error "interface not ready"
                           [("interface", log.VString (Name p));
                            ("error", log.VError err)]) in
          match StopMonitoring rt index p with
          | (t', Returns (rt', p')) =>
              (l0 :: t ++ l1 :: t', Returns (rt', <[index := p']> PFs))
          | (t', Panics r) => (l0 :: t ++ l1 :: t', Panics r)
          | (t', Blocks) => (l0 :: t ++ l1 :: t', Blocks)
          end
      | Returns None =>
          let '(rt', p', t') := StartMonitoring rt index ctx0 p in
          (l0 :: t ++ t', Returns (rt', <[index := p']> PFs))
      end
  end.

(** [func New(nics []string, pollingInterval int) Interfaces] (lines 18-40):
    the [range] over [nics], continued from the map built so far. *)
Fixpoint New_range (nl : Netlink) (pollingInterval : Z) (nics : list string)
    (PFs : gmap Z PF) : gmap Z PF * list Event :=
  match nics with
  | [] => (PFs, [])
  | name :: rest =>
      match LinkByName nl name with
      | Failed err =>
          let '(m, t) := New_range nl pollingInterval rest PFs in
          (m, Log (log.Warn "failed to fetch interface"
                     [("interface", log.VString name);
                      ("error", log.VError err)]) :: t)
      | Found link =>
          let a := Attrs link in
          let '(m, t) :=
            New_range nl pollingInterval rest
              (<[netlink.Index a :=
                   {| Name := netlink.Name a;
                      Index := netlink.Index a;
                      OperState := netlink.OperState a;
                      MasterIndex := netlink.MasterIndex a;
                      Monitoring := false;
                      ctx := None; cancel := None; endChan := None;
                      pollingInterval := pollingInterval |}]> PFs) in
          (m, Log (log.Debug "adding interface"
                     [("interface", log.VString name)]) :: t)
      end
  end.

Definition New (nl : Netlink) (nics : list string) (pollingInterval : Z)
  : gmap Z PF * list Event :=
  New_range nl pollingInterval nics ∅.

(** [func (i *Interfaces) Indexes() []int] (lines 93-100).  Go leaves the
    order of a [range] over a map open; the list is given here in the order
    of [map_to_list]. *)
Definition Indexes (PFs : gmap Z PF) : list Z := (map_to_list PFs).*1.

(** The loop of lines 47-55 of [Start], over the PFs in the order [ps] in
    which the [range] hands them out (key and PF behind the pointer). *)
Fixpoint inspect_each (nl : Netlink) (ctx0 : nat) (ps : list (Z * PF))
    (rt : Runtime) (PFs : gmap Z PF)
  : list Event * Outcome (Runtime * gmap Z PF) :=
  match ps with
  | [] => ([], Returns (rt, PFs))
  | (index, p) :: rest =>
      match Inspect nl p with
      | Panics r => ([], Panics r)
      | Blocks => ([], Blocks)
      | Returns (Some err) =>
          let '(t, o) := inspect_each nl ctx0 rest rt PFs in
          (Log (log.Error "interface not ready"
                  [("interface", log.VString (Name p));
                   ("error", log.VError err)]) :: t, o)
      | Returns None =>
          let '(rt', p', t1) := StartMonitoring rt index ctx0 p in
          let '(t, o) :=
            inspect_each nl ctx0 rest rt' (<[index := p']> PFs) in
          (t1 ++ t, o)
      end
  end.

(** The loop of lines 83-85 of [Start], over the PFs in the order [ps]. *)
Fixpoint stop_each (ps : list (Z * PF)) (rt : Runtime) (PFs : gmap Z PF)
  : list Event * Outcome (Runtime * gmap Z PF) :=
  match ps with
  | [] => ([], Returns (rt, PFs))
  | (index, p) :: rest =>
      match StopMonitoring rt index p with
      | (t1, Returns (rt', p')) =>
          let '(t, o) := stop_each rest rt' (<[index := p']> PFs) in
          (t1 ++ t, o)
      | (t1, Panics r) => (t1, Panics r)
      | (t1, Blocks) => (t1, Blocks)
      end
  end.

(** The case [<-ctx.Done()] of the goroutine of [Start] (lines 81-86). *)
Definition on_ctx_done (ps : list (Z * PF)) (rt : Runtime) (PFs : gmap Z PF)
  : list Event * Outcome (Runtime * gmap Z PF) :=
  let '(t, o) := stop_each ps rt PFs in
  (Log (log.Debug "ctx cancelled" [("routine", log.VString "interfaces")])
     :: t, o).

(** What the [select] of the goroutine of [Start] finds ready: an index on
    the queue (with the answers of the kernel while it is processed), or
    [ctx.Done()]. *)
Inductive Message :=
| Notification (index : Z) (nl : Netlink)
| Cancelled.

(** The goroutine of [Start] (lines 59-89) on a schedule.  It goes on to the
    next message only when the case of the previous one has returned; after
    [Cancelled] it stops every PF (in the order of [map_to_list]) and
    returns.  When the schedule runs out the goroutine is waiting in its
    [select], in the state returned. *)
Fixpoint dispatch (ctx0 : nat) (msgs : list Message) (rt : Runtime)
    (PFs : gmap Z PF) : list Event * Outcome (Runtime * gmap Z PF) :=
  match msgs with
  | [] => ([], Returns (rt, PFs))
  | Notification index nl :: rest =>
      match on_index nl ctx0 rt PFs index with
      | (t, Returns (rt', PFs')) =>
          let '(t', o) := dispatch ctx0 rest rt' PFs' in (t ++ t', o)
      | (t, Panics r) => (t, Panics r)
      | (t, Blocks) => (t, Blocks)
      end
  | Cancelled :: _ => on_ctx_done (map_to_list PFs) rt PFs
  end.

End Registry.
End lacp.

(** ** Package [config] *)

Module config.

Definition path : string := "/etc/pf-status-relay/config.yaml".

(** [Interfaces] is a slice, [None] being nil. *)
Record Config := mkConfig {
  Interfaces : option (list string);
  PollingInterval : Z
}.

(** [ReadConfig] returns a [Config] or ends the process with [os.Exit]. *)
Inductive Result :=
| Loaded (c : Config)
| Exit (code : Z).

Section ReadConfig.
(** [os.ReadFile]: the bytes of the file, or an error. *)
Variable ReadFile : string -> string + string.
(** [yaml.Unmarshal(data, &c)]: the [Config] as the call leaves it, and the
    error. *)
Variable Unmarshal : string -> Config -> Config * option string.

Definition ReadConfig : list Event * Result :=
  match ReadFile path with
  | inr err =>
      ([Log (log.Error "failed to read config file"
               [("error", log.VError err)])], Exit 1)
  | inl data =>
      let c := {| Interfaces := None; PollingInterval := 1000 |} in
      match Unmarshal data c with
      | (_, Some err) =>
          ([Log (log.Error "failed to unmarshall config file"
                   [("error", log.VError err)])], Exit 1)
      | (c, None) =>
          match Interfaces c with
          | None =>
              ([Log (log.Error "failed to parse config file"
                       [("error", log.VString "no interfaces found")])],
               Exit 1)
          | Some _ =>
              if (PollingInterval c <=? 0)%Z then
                ([Log (log.Error "failed to parse config file"
                         [("error",
                           log.VString "invalid polling interval")])],
                 Exit 1)
              else ([], Loaded c)
          end
      end
  end.

End ReadConfig.
End config.

Import netlink lacp.

(** ** Reading a trace *)

(** The calls of [netlink.LinkSetVfState] of a trace, in order, as
    (link index, VF id, requested state). *)
Definition request_of (e : Event) : option (Z * Z * Z) :=
  match e with
  | SetVfState link vf state => Some (link, vf, state)
  | _ => None
  end.

Definition requests (t : list Event) : list (Z * Z * Z) := omap request_of t.

(** The informational entry of line 119. *)
Definition no_VFs_entry (p : PF) : Event :=
  Log (log.Info "interface has no VFs" [("interface", log.VString (Name p))]).

Definition is_no_VFs (e : Event) : bool :=
  match e with
  | Log en =>
      log.level_eqb (log.level en) log.LevelInfo
      && String.eqb (log.msg en) "interface has no VFs"
  | _ => false
  end.

Definition count_no_VFs (t : list Event) : nat :=
  length (List.filter is_no_VFs t).

(** The entries of lines 151/153 and 169/171 for one VF. *)
Definition set_failed (key : string) (p : PF) (vf : VfInfo) (err : string)
  : Event :=
  Log (log.Error "failed to set vf link state"
         [("id", log.VInt (ID vf)); (key, log.VString (Name p));
          ("error", log.VError err)]).

Definition was_set (label : string) (p : PF) (vf : VfInfo) : Event :=
  Log (log.Info "vf link state was set"
         [("id", log.VInt (ID vf)); ("state", log.VString label);
          ("interface", log.VString (Name p))]).

(** What a tick finds when it reads the attributes of its PF. *)
Inductive Observation := ReadFailed | NoVFs | HasVFs.

Definition observe {BondSlave : Type} (p : PF)
    (nl : netlink.Netlink BondSlave) : Observation :=
  match LinkByIndex nl (Index p) with
  | Failed _ => ReadFailed
  | Found link =>
      match Vfs (Attrs link) with
      | [] => NoVFs
      | _ :: _ => HasVFs
      end
  end.

(** The ticks a goroutine runs on a schedule: those before the first
    cancellation it selects. *)
Fixpoint ticks_run {BondSlave : Type} (sigs : list (Signal BondSlave))
  : list Observation :=
  match sigs with
  | Tick p nl :: rest => observe p nl :: ticks_run rest
  | Done _ :: _ | [] => []
  end.

(** The number of maximal runs of consecutive [NoVFs] in a list of
    observations; [inrun] tells whether the previous one was [NoVFs]. *)
Fixpoint runs (inrun : bool) (obs : list Observation) : nat :=
  match obs with
  | [] => 0
  | NoVFs :: rest => (if inrun then 0 else 1) + runs true rest
  | _ :: rest => runs false rest
  end.

Definition read_ok (o : Observation) : bool :=
  match o with ReadFailed => false | _ => true end.

Definition is_cancel {BondSlave : Type} (s : Signal BondSlave) : bool :=
  match s with Done _ => true | Tick _ _ => false end.

(** The invariant of a PF and its goroutines: one live goroutine when
    [Monitoring] is set, none when it is not. *)
Definition pf_invariant (rt : Runtime) (self : Z) (p : PF) : Prop :=
  length (live rt self) = if Monitoring p then 1 else 0.

(** The stronger invariant the registry keeps: a monitoring PF holds the
    cancel function and the channel of its one live goroutine. *)
Definition pf_wf (rt : Runtime) (self : Z) (p : PF) : Prop :=
  if Monitoring p then
    exists c ch, cancel p = Some c /\ endChan p = Some ch
                 /\ live rt self = [mkGoroutine self c]
  else live rt self = [].

(** Every PF of the registry is well formed, and no goroutine belongs to
    an index outside the registry. *)
Definition registry_wf (rt : Runtime) (PFs : gmap Z PF) : Prop :=
  forall k,
    match PFs !! k with
    | Some p => pf_wf rt k p
    | None => live rt k = []
    end.

(** The entries "lacp is up" ([true]) and "lacp is down" ([false]) of a
    trace, in order. *)
Definition lacp_entry (e : Event) : option bool :=
  match e with
  | Log en =>
      if log.level_eqb (log.level en) log.LevelInfo then
        if String.eqb (log.msg en) "lacp is up" then Some true
        else if String.eqb (log.msg en) "lacp is down" then Some false
        else None
      else None
  | _ => None
  end.

Definition lacp_entries (t : list Event) : list bool := omap lacp_entry t.

(** A list of observations with the repetitions taken out: an element is
    kept when it differs from the one before it ([prev] before the first). *)
Fixpoint changes (prev : option bool) (l : list bool) : list bool :=
  match l with
  | [] => []
  | b :: rest =>
      match prev with
      | Some a => if Bool.eqb a b then [] else [b]
      | None => [b]
      end ++ changes (Some b) rest
  end.

(** What a tick learns about the protocol: nothing unless it reads the
    link, finds VFs and finds a slave record of bonding type. *)
Definition protocol_seen {BondSlave : Type}
    (isProtocolUp : BondSlave -> bool) (p : PF)
    (nl : netlink.Netlink BondSlave) : option bool :=
  match LinkByIndex nl (Index p) with
  | Failed _ => None
  | Found link =>
      match Vfs (Attrs link), Slave (Attrs link) with
      | _ :: _, Some (IsBondSlave s) => Some (isProtocolUp s)
      | _, _ => None
      end
  end.

(** The protocol states seen by the ticks a goroutine runs on a schedule. *)
Fixpoint protocol_run {BondSlave : Type} (isProtocolUp : BondSlave -> bool)
    (sigs : list (Signal BondSlave)) : list bool :=
  match sigs with
  | Tick p nl :: rest =>
      match protocol_seen isProtocolUp p nl with
      | Some b => b :: protocol_run isProtocolUp rest
      | None => protocol_run isProtocolUp rest
      end
  | Done _ :: _ | [] => []
  end.

(** The protocol state the loop variables stand for: the one logged last,
    if any. *)
Definition last_logged (v : LoopVars) : option bool :=
  if lacpUp v then Some true
  else if firstDownLog v then None
  else Some false.

(** [ps] is the registry as a [range] over it hands it out: every key once,
    with the PF stored under it. *)
Definition snapshot (ps : list (Z * PF)) (PFs : gmap Z PF) : Prop :=
  ps ≡ₚ map_to_list PFs.

(** The channels a trace sends on, in order. *)
Definition send_of (e : Event) : option nat :=
  match e with Send ch => Some ch | _ => None end.

Definition sends (t : list Event) : list nat := omap send_of t.

(** The PF at the first cancellation of a schedule. *)
Fixpoint first_cancel {BondSlave : Type} (sigs : list (Signal BondSlave))
  : option PF :=
  match sigs with
  | [] => None
  | Tick _ _ :: rest => first_cancel rest
  | Done p :: _ => Some p
  end.

(** The PF that [New] stores for a link it resolved (lines 29-36). *)
Definition fresh_PF {BondSlave : Type} (a : LinkAttrs BondSlave)
    (pollingInterval : Z) : PF :=
  {| Name := netlink.Name a; Index := netlink.Index a;
     OperState := netlink.OperState a;
     MasterIndex := netlink.MasterIndex a;
     Monitoring := false; ctx := None; cancel := None; endChan := None;
     pollingInterval := pollingInterval |}.

(** The entries of lines 137, 141 and 158. *)
Definition lacp_up_entry (p : PF) : Event :=
  Log (log.Info "lacp is up" [("interface", log.VString (Name p))]).

Definition slow_rate_entry (p : PF) : Event :=
  Log (log.Warn "partner is using slow lacp rate"
         [("interface", log.VString (Name p))]).

Definition lacp_down_entry (p : PF) : Event :=
  Log (log.Info "lacp is down" [("interface", log.VString (Name p))]).

(** ** Sample data *)

(** A bond slave reduced to the two answers the loop asks of it. *)
Record SampleSlave := mkSampleSlave { synchronized : bool; fast : bool }.

Definition sample_attrs (name : string) (index oper master : Z)
    (slave : option (LinkSlave SampleSlave)) (vfs : list VfInfo)
  : LinkAttrs SampleSlave :=
  {| netlink.Name := name; netlink.Index := index;
     netlink.OperState := oper; netlink.MasterIndex := master;
     Slave := slave; Vfs := vfs |}.

(** [eth0] (index 3) is enslaved to [bond0] (index 5); [br0] (index 9) is
    a bridge. *)
Definition eth0 : PF :=
  {| Name := "eth0"; Index := 3; OperState := OperUp; MasterIndex := 5;
     Monitoring := false; ctx := None; cancel := None; endChan := None;
     pollingInterval := 1000 |}.

Definition eth1 : PF :=
  {| Name := "eth1"; Index := 4; OperState := OperUp; MasterIndex := 9;
     Monitoring := false; ctx := None; cancel := None; endChan := None;
     pollingInterval := 1000 |}.

Definition sample_vfs : list VfInfo :=
  [mkVfInfo 0 VF_LINK_STATE_DISABLE; mkVfInfo 1 VF_LINK_STATE_ENABLE;
   mkVfInfo 2 VF_LINK_STATE_AUTO; mkVfInfo 3 VF_LINK_STATE_DISABLE].

Definition bond0 : Link SampleSlave :=
  mkLink (sample_attrs "bond0" 5 OperUp 0 None []) (Bond BOND_MODE_802_3AD).

Definition br0 : Link SampleSlave :=
  mkLink (sample_attrs "br0" 9 OperUp 0 None []) (OtherLink "bridge").

(** The kernel with [eth0] as given by [oper], [slave] and [vfs], where
    writes to the VFs listed in [bad] fail. *)
Definition kernel (oper : Z) (slave : option (LinkSlave SampleSlave))
    (vfs : list VfInfo) (bad : list Z) : netlink.Netlink SampleSlave :=
  {| LinkByIndex := fun i =>
       if (i =? 3)%Z then
         Found (mkLink (sample_attrs "eth0" 3 oper 5 slave vfs)
                  (OtherLink "device"))
       else if (i =? 4)%Z then
         Found (mkLink (sample_attrs "eth1" 4 OperUp 9 None [])
                  (OtherLink "device"))
       else if (i =? 5)%Z then Found bond0
       else if (i =? 9)%Z then Found br0
       else Failed "Link not found";
     LinkByName := fun _ => Failed "Link not found";
     LinkSetVfState := fun _ vf _ =>
       if bool_decide (vf ∈ bad) then Some "operation not supported"
       else None |}.

Definition lacp_slave (up : bool) : option (LinkSlave SampleSlave) :=
  Some (IsBondSlave (mkSampleSlave up true)).

(** A kernel that cannot resolve any index. *)
Definition unplugged : netlink.Netlink SampleSlave :=
  {| LinkByIndex := fun _ => Failed "Link not found";
     LinkByName := fun _ => Failed "Link not found";
     LinkSetVfState := fun _ _ _ => None |}.

Definition empty_runtime : Runtime :=
  {| next := 1; parent := ∅; cancelled := ∅; monitors := [] |}.

(** [eth0] in LACP, with the sample VFs or with none. *)
Definition kernel_up : netlink.Netlink SampleSlave :=
  kernel OperUp (lacp_slave true) sample_vfs [].

Definition kernel_down : netlink.Netlink SampleSlave :=
  kernel OperUp (lacp_slave false) sample_vfs [].

Definition kernel_no_vfs : netlink.Netlink SampleSlave :=
  kernel OperUp (lacp_slave true) [] [].

(** As [kernel_up], but the write to VF 0 fails. *)
Definition kernel_bad_vf0 : netlink.Netlink SampleSlave :=
  kernel OperUp (lacp_slave true) sample_vfs [0%Z].

(** As [kernel_down], but the write to VF 2 fails. *)
Definition kernel_bad_vf2 : netlink.Netlink SampleSlave :=
  kernel OperUp (lacp_slave false) sample_vfs [2%Z].

(** [eth0] with VFs but without a slave record, and with a slave record of
    another type. *)
Definition kernel_no_slave : netlink.Netlink SampleSlave :=
  kernel OperUp None sample_vfs [].

Definition kernel_vrf_slave : netlink.Netlink SampleSlave :=
  kernel OperUp (Some (OtherSlave "vrf")) sample_vfs [].

(** [eth0] reported down. *)
Definition kernel_eth0_down : netlink.Netlink SampleSlave :=
  kernel 2 (lacp_slave false) sample_vfs [].

(** Three ticks: no VFs, a failed read, no VFs again. *)
Definition empty_failed_empty : list (Signal SampleSlave) :=
  [Tick eth0 kernel_no_vfs; Tick eth0 unplugged; Tick eth0 kernel_no_vfs].

(** A registry holding [eth0] only. *)
Definition registry : gmap Z PF := {[ 3%Z := eth0 ]}.

(** [eth0] once [StartMonitoring] has run on it, and the runtime then. *)
Definition monitoring_runtime : Runtime :=
  (StartMonitoring empty_runtime 3 0 eth0).1.1.

Definition eth0_monitoring : PF :=
  (StartMonitoring empty_runtime 3 0 eth0).1.2.

Definition registry_monitoring : gmap Z PF := {[ 3%Z := eth0_monitoring ]}.

(** [eth0] cached as down (operational state 2). *)
Definition eth0_cached_down : PF :=
  {| Name := "eth0"; Index := 3; OperState := 2; MasterIndex := 5;
     Monitoring := false; ctx := None; cancel := None; endChan := None;
     pollingInterval := 1000 |}.

Definition registry_down : gmap Z PF := {[ 3%Z := eth0_cached_down ]}.

(** A registry holding [eth1], whose master is the bridge. *)
Definition registry_eth1 : gmap Z PF := {[ 4%Z := eth1 ]}.

(** [kernel_up] resolving the names [eth0] and [eth1]. *)
Definition kernel_names : netlink.Netlink SampleSlave :=
  {| LinkByIndex := LinkByIndex kernel_up;
     LinkByName := fun name =>
       if String.eqb name "eth0" then LinkByIndex kernel_up 3
       else if String.eqb name "eth1" then LinkByIndex kernel_up 4
       else Failed "Link not found";
     LinkSetVfState := LinkSetVfState kernel_up |}.

(** A readable file whose YAML sets the interfaces and leaves the polling
    interval alone. *)
Definition sample_ReadFile (_ : string) : string + string :=
  inl "interfaces: [eth0]".

Definition sample_Unmarshal (_ : string) (c : config.Config)
  : config.Config * option string :=
  ({| config.Interfaces := Some ["eth0"];
      config.PollingInterval := config.PollingInterval c |}, None).

(** ** Properties *)

Section Properties.
Context {BondSlave : Type}.
Variable isProtocolUp : BondSlave -> bool.
Variable IsFastRate : BondSlave -> bool.
#[local] Abbreviation Netlink := (netlink.Netlink BondSlave).
#[local] Abbreviation tick := (lacp.tick isProtocolUp IsFastRate).
#[local] Abbreviation monitor := (lacp.monitor isProtocolUp IsFastRate).

(** *** The [range] loops *)

Lemma requests_app (t1 t2 : list Event) :
  requests (t1 ++ t2) = requests t1 ++ requests t2.
Proof. apply omap_app. Qed.

Lemma requests_range_vfs from to label key (nl : Netlink) p link vfs :
  requests (range_vfs from to label key nl p link vfs) =
  map (fun vf => (link, ID vf, to))
      (filter (fun vf => LinkState vf = from) vfs).
Proof.
  induction vfs as [|vf rest IH]; [done|].
  cbn [range_vfs]. rewrite filter_cons.
  change (requests (?e :: ?t)) with (requests ([e] ++ t)).
  rewrite !requests_app, IH. clear IH.
  destruct (Z.eqb_spec (LinkState vf) from) as [Heq|Hne].
  - rewrite decide_True by done.
    destruct (LinkSetVfState nl link (ID vf) to); reflexivity.
  - rewrite decide_False by done. reflexivity.
Qed.

(** Every VF in state [from] gets its write, the error entry when the
    write fails, and the entry that reports the new state. *)
Lemma range_vfs_attempt from to label key (nl : Netlink) p link vfs vf :
  vf ∈ vfs -> LinkState vf = from ->
  exists t1 t2,
    range_vfs from to label key nl p link vfs =
    t1 ++ SetVfState link (ID vf) to ::
          match LinkSetVfState nl link (ID vf) to with
          | Some err => [set_failed key p vf err]
          | None => []
          end ++ was_set label p vf :: t2.
Proof.
  intros Hin Hst. induction vfs as [|vf' rest IH]; [by apply elem_of_nil in Hin|].
  apply elem_of_cons in Hin as [<-|Hin].
  - exists [vf_info p vf], (range_vfs from to label key nl p link rest).
    cbn [range_vfs]. rewrite (proj2 (Z.eqb_eq _ _) Hst).
    cbn [app]. f_equal. f_equal. rewrite <- app_assoc. reflexivity.
  - destruct (IH Hin) as (t1 & t2 & Heq).
    cbn [range_vfs]. rewrite Heq.
    set (m := if (LinkState vf' =? from)%Z then _ else _).
    exists (vf_info p vf' :: m ++ t1), t2.
    cbn [app]. by rewrite <- app_assoc.
Qed.

(** *** One tick *)

Lemma tick_read_failed (nl : Netlink) p v err :
  LinkByIndex nl (Index p) = Failed err ->
  tick p nl v =
  (v, Breaks,
   [Log (log.Warn "failed to fetch interface"
           [("interface", log.VString (Name p)); ("error", log.VError err)])]).
Proof. intros H. unfold lacp.tick. by rewrite H. Qed.

Lemma tick_no_VFs (nl : Netlink) p v link :
  LinkByIndex nl (Index p) = Found link -> Vfs (Attrs link) = [] ->
  tick p nl v =
  if noVFLog v then (with_noVFLog false v, Breaks, [no_VFs_entry p])
  else (v, Breaks, []).
Proof. intros H E. unfold lacp.tick. by rewrite H, E. Qed.

Lemma length_eqb_0 {A} (l : list A) : l <> [] -> (length l =? 0)%nat = false.
Proof. by destruct l. Qed.

Lemma tick_up (nl : Netlink) p v link s :
  LinkByIndex nl (Index p) = Found link -> Vfs (Attrs link) <> [] ->
  Slave (Attrs link) = Some (IsBondSlave s) -> isProtocolUp s = true ->
  exists v' t,
    tick p nl v =
    (v', Falls,
     t ++ bring_to_auto nl p (netlink.Index (Attrs link)) (Vfs (Attrs link)))
    /\ requests t = [] /\ count_no_VFs t = 0 /\ noVFLog v' = true.
Proof.
  intros H E S U. unfold lacp.tick. rewrite H, (length_eqb_0 _ E), S, U.
  cbn. destruct (lacpUp v); cbn; [by exists (with_noVFLog true v), []|].
  destruct (IsFastRate s); cbn.
  - by eexists _, [_].
  - by eexists _, [_; _].
Qed.

Lemma tick_down (nl : Netlink) p v link s :
  LinkByIndex nl (Index p) = Found link -> Vfs (Attrs link) <> [] ->
  Slave (Attrs link) = Some (IsBondSlave s) -> isProtocolUp s = false ->
  exists v' t,
    tick p nl v =
    (v', Falls,
     t ++ bring_to_disable nl p (netlink.Index (Attrs link))
            (Vfs (Attrs link)))
    /\ requests t = [] /\ count_no_VFs t = 0 /\ noVFLog v' = true.
Proof.
  intros H E S U. unfold lacp.tick. rewrite H, (length_eqb_0 _ E), S, U.
  cbn. destruct (lacpUp v); cbn; [by eexists _, [_]|].
  destruct (firstDownLog v); cbn.
  - by eexists _, [_].
  - by exists (with_noVFLog true v), [].
Qed.

Lemma tick_not_Return (nl : Netlink) p v : (tick p nl v).1.2 <> Return.
Proof.
  unfold lacp.tick.
  destruct (LinkByIndex nl (Index p)) as [link|err]; [|done].
  destruct (length (Vfs (Attrs link)) =? 0)%nat.
  { by destruct (noVFLog v). }
  destruct (Slave (Attrs link)) as [[s|ty]|]; [|done|done].
  destruct (isProtocolUp s).
  - by destruct (negb _).
  - by destruct (_ || _).
Qed.

(** *** C1 *)

(** C1.  On a tick that reads the link and finds a slave record of bonding
    type: when the protocol is up, the writes requested of the kernel are
    exactly one write of [auto] for each VF whose state is [disable], in the
    order of the VF list; when the protocol is down, exactly one write of
    [disable] for each VF whose state is [auto].  No other VF is written. *)
Theorem C1_reconciliation (nl : Netlink) (p : PF) (v : LoopVars)
    (link : Link BondSlave) (s : BondSlave) :
  LinkByIndex nl (Index p) = Found link ->
  Slave (Attrs link) = Some (IsBondSlave s) ->
  (isProtocolUp s = true ->
   requests (tick p nl v).2 =
   map (fun vf => (netlink.Index (Attrs link), ID vf, VF_LINK_STATE_AUTO))
       (filter (fun vf => LinkState vf = VF_LINK_STATE_DISABLE)
               (Vfs (Attrs link))))
  /\
  (isProtocolUp s = false ->
   requests (tick p nl v).2 =
   map (fun vf => (netlink.Index (Attrs link), ID vf, VF_LINK_STATE_DISABLE))
       (filter (fun vf => LinkState vf = VF_LINK_STATE_AUTO)
               (Vfs (Attrs link)))).
Proof.
  intros H S.
  destruct (Vfs (Attrs link)) as [|vf0 rest] eqn:E.
  { rewrite (tick_no_VFs _ _ _ _ H E). by destruct (noVFLog v). }
  assert (Vfs (Attrs link) <> []) as Hne by (by rewrite E).
  rewrite <- E. split; intros U.
  - destruct (tick_up _ _ v _ _ H Hne S U) as (v' & t & -> & Ht & _ & _).
    cbn [snd]. rewrite requests_app, Ht. apply requests_range_vfs.
  - destruct (tick_down _ _ v _ _ H Hne S U) as (v' & t & -> & Ht & _ & _).
    cbn [snd]. rewrite requests_app, Ht. apply requests_range_vfs.
Qed.

(** *** Inspect *)

Lemma Inspect_success (nl : Netlink) (p : PF) :
  Inspect nl p = Returns None <->
  OperState p = OperUp /\ MasterIndex p <> 0%Z /\
  exists bond, LinkByIndex nl (MasterIndex p) = Found bond
               /\ dyn bond = Bond BOND_MODE_802_3AD.
Proof.
  unfold Inspect.
  destruct (Z.eqb_spec (OperState p) OperUp) as [Hup|Hup]; cbn [negb].
  2: { split; [done|]. by intros [? _]. }
  destruct (Z.eqb_spec (MasterIndex p) 0) as [Hm|Hm].
  { split; [done|]. by intros (_ & ? & _). }
  destruct (LinkByIndex nl (MasterIndex p)) as [bond|err].
  2: { split; [done|]. by intros (_ & _ & ? & ? & _). }
  destruct (dyn bond) as [mode|ty] eqn:Hdyn.
  2: { split; [done|]. intros (_ & _ & b & [= <-] & Hb). congruence. }
  destruct (Z.eqb_spec mode BOND_MODE_802_3AD) as [->|Hmode]; cbn [negb].
  - split; [|done]. intros _. repeat split; [done..|]. by exists bond.
  - split; [done|]. intros (_ & _ & b & [= <-] & Hb). congruence.
Qed.

(** The causes [Inspect] reports, clause by clause. *)
Lemma Inspect_not_up (nl : Netlink) (p : PF) :
  OperState p <> OperUp -> Inspect nl p = Returns (Some err_not_up).
Proof.
  intros H. unfold Inspect.
  by destruct (Z.eqb_spec (OperState p) OperUp).
Qed.

Lemma Inspect_no_master (nl : Netlink) (p : PF) :
  OperState p = OperUp -> MasterIndex p = 0%Z ->
  Inspect nl p = Returns (Some err_no_master).
Proof. intros H1 H2. unfold Inspect. by rewrite H1, H2. Qed.

Lemma Inspect_master_unresolved (nl : Netlink) (p : PF) err :
  OperState p = OperUp -> MasterIndex p <> 0%Z ->
  LinkByIndex nl (MasterIndex p) = Failed err ->
  Inspect nl p = Returns (Some (err_fetch_master (MasterIndex p) err)).
Proof.
  intros H1 H2 H3. unfold Inspect. rewrite H1, H3.
  by destruct (Z.eqb_spec (MasterIndex p) 0).
Qed.

Lemma Inspect_wrong_mode (nl : Netlink) (p : PF) bond mode :
  OperState p = OperUp -> MasterIndex p <> 0%Z ->
  LinkByIndex nl (MasterIndex p) = Found bond ->
  dyn bond = Bond mode -> mode <> BOND_MODE_802_3AD ->
  Inspect nl p =
  Returns (Some (err_wrong_mode (netlink.Name (Attrs bond)))).
Proof.
  intros H1 H2 H3 H4 H5. unfold Inspect. rewrite H1, H3, H4.
  destruct (Z.eqb_spec (MasterIndex p) 0); [done|].
  by destruct (Z.eqb_spec mode BOND_MODE_802_3AD).
Qed.

(** C9.  When the PF is up and has a master, and the master index resolves
    to a link that is not a bond, [Inspect] panics in its type assertion:
    it returns neither a nil error nor an error value. *)
Theorem C9_inspect_panics_on_non_bond (nl : Netlink) (p : PF)
    (master : Link BondSlave) (ty : string) :
  OperState p = OperUp ->
  MasterIndex p <> 0%Z ->
  LinkByIndex nl (MasterIndex p) = Found master ->
  dyn master = OtherLink ty ->
  Inspect nl p = Panics interface_conversion
  /\ forall err, Inspect nl p <> Returns err.
Proof.
  intros H1 H2 H3 H4.
  assert (Inspect nl p = Panics interface_conversion) as ->; [|done].
  unfold Inspect. rewrite H1, H3, H4.
  by destruct (Z.eqb_spec (MasterIndex p) 0).
Qed.

(** *** Update *)

(** C4.  When the index of the PF still resolves: if the operational state
    just read equals the cached one, [Update] returns [false] with a nil
    error and leaves the PF as it was, whatever the other attributes read;
    otherwise it returns [true] with a nil error, and name, index,
    operational state and master index are the ones just read (the
    remaining fields keep their values). *)
Theorem C4_update_change_detection (nl : Netlink) (p : PF)
    (link : Link BondSlave) :
  LinkByIndex nl (Index p) = Found link ->
  (netlink.OperState (Attrs link) = OperState p ->
   (Update nl (Some p)).2 = Returns (p, false, None))
  /\
  (netlink.OperState (Attrs link) <> OperState p ->
   exists p',
     (Update nl (Some p)).2 = Returns (p', true, None)
     /\ Name p' = netlink.Name (Attrs link)
     /\ Index p' = netlink.Index (Attrs link)
     /\ OperState p' = netlink.OperState (Attrs link)
     /\ MasterIndex p' = netlink.MasterIndex (Attrs link)
     /\ Monitoring p' = Monitoring p
     /\ ctx p' = ctx p /\ cancel p' = cancel p /\ endChan p' = endChan p
     /\ pollingInterval p' = pollingInterval p).
Proof.
  intros H. unfold Update. rewrite H. split; intros Hst.
  - by rewrite (proj2 (Z.eqb_eq _ _) Hst).
  - rewrite (proj2 (Z.eqb_neq _ _) Hst). eexists. by repeat split.
Qed.

(** *** Starting and stopping *)

Lemma live_StartMonitoring (rt : Runtime) (self : Z) (ctx0 : nat) (p : PF) :
  Monitoring p = false ->
  live (StartMonitoring rt self ctx0 p).1.1 self =
  live rt self ++ [mkGoroutine self (next rt)].
Proof.
  intros H. unfold StartMonitoring, live. rewrite H. cbn.
  rewrite filter_app, filter_cons, decide_True by done. reflexivity.
Qed.

Lemma StartMonitoring_invariant (rt : Runtime) (self : Z) (ctx0 : nat)
    (p : PF) :
  pf_invariant rt self p ->
  let '(rt', p', _) := StartMonitoring rt self ctx0 p in
  Monitoring p' = true /\ Name p' = Name p /\ pf_invariant rt' self p'.
Proof.
  unfold pf_invariant. intros Hinv.
  destruct (Monitoring p) eqn:H.
  - unfold StartMonitoring. rewrite H. by rewrite H.
  - pose proof (live_StartMonitoring rt self ctx0 p H) as Hl.
    unfold StartMonitoring in *. rewrite H in *. cbn in *.
    repeat split. by rewrite Hl, length_app, Hinv.
Qed.

(** C6.  Starting twice on a PF that satisfies its invariant (whether it
    was monitoring before or not): after the first call [Monitoring] is
    set; the second call emits one debug entry and nothing else, and leaves
    the PF and the runtime as the first call left them.  One goroutine of
    the PF is live afterwards. *)
Theorem C6_start_twice (rt : Runtime) (self : Z) (ctx1 ctx2 : nat) (p : PF) :
  pf_invariant rt self p ->
  let '(rt1, p1, _) := StartMonitoring rt self ctx1 p in
  let '(rt2, p2, t2) := StartMonitoring rt1 self ctx2 p1 in
  Monitoring p1 = true
  /\ rt2 = rt1 /\ p2 = p1
  /\ t2 = [Log (log.Debug "lacp monitoring has already started"
                  [("interface", log.VString (Name p))])]
  /\ length (live rt2 self) = 1.
Proof.
  intros Hinv.
  pose proof (StartMonitoring_invariant rt self ctx1 p Hinv) as H1.
  destruct (StartMonitoring rt self ctx1 p) as [[rt1 p1] t1].
  destruct H1 as (Hm & Hname & Hinv1).
  unfold StartMonitoring. rewrite Hm, Hname.
  unfold pf_invariant in Hinv1. rewrite Hm in Hinv1.
  repeat split; done.
Qed.

(** C7.  Stopping a PF whose [Monitoring] flag is false returns at once:
    nothing is logged, no context is cancelled, no channel is received
    from, and the PF and the runtime are unchanged. *)
Theorem C7_stop_when_not_monitoring (rt : Runtime) (self : Z) (p : PF) :
  Monitoring p = false ->
  StopMonitoring rt self p = ([], Returns (rt, p)).
Proof. intros H. unfold StopMonitoring. by rewrite H. Qed.

(** *** The dispatch loop *)

Lemma on_index_unknown (nl : Netlink) (ctx0 : nat) (rt : Runtime)
    (PFs : gmap Z PF) (index : Z) :
  PFs !! index = None ->
  on_index nl ctx0 rt PFs index =
  ([Log (log.Debug "processing event" [("index", log.VInt index)])],
   Panics nil_dereference).
Proof. intros H. unfold on_index. by rewrite H. Qed.

(** *** The goroutine on a schedule *)

Lemma monitor_tick p (nl : Netlink) sigs v :
  monitor (Tick p nl :: sigs) v =
  ((monitor sigs (tick p nl v).1.1).1,
   (tick p nl v).2 ++ (monitor sigs (tick p nl v).1.1).2).
Proof.
  cbn [lacp.monitor lacp.select].
  pose proof (tick_not_Return nl p v) as Hf.
  destruct (tick p nl v) as [[v' f] t]. cbn in *.
  destruct f; [| |done]; by destruct (monitor sigs v').
Qed.

Lemma monitor_exits_iff_cancelled (sigs : list (Signal BondSlave)) v :
  (monitor sigs v).1 = None <-> existsb is_cancel sigs = true.
Proof.
  revert v. induction sigs as [|[p nl|p] rest IH]; intros v.
  - done.
  - rewrite monitor_tick. cbn. apply IH.
  - done.
Qed.

Lemma count_no_VFs_app t1 t2 :
  count_no_VFs (t1 ++ t2) = count_no_VFs t1 + count_no_VFs t2.
Proof. unfold count_no_VFs. by rewrite List.filter_app, length_app. Qed.

Lemma count_no_VFs_range_vfs from to label key (nl : Netlink) p link vfs :
  count_no_VFs (range_vfs from to label key nl p link vfs) = 0.
Proof.
  induction vfs as [|vf rest IH]; [done|].
  cbn [range_vfs].
  change (count_no_VFs (?e :: ?t)) with (count_no_VFs ([e] ++ t)).
  rewrite !count_no_VFs_app, IH.
  destruct (LinkState vf =? from)%Z; [|done].
  by destruct (LinkSetVfState nl link (ID vf) to).
Qed.

(** What a tick adds to the count of "no VFs" entries, and what it does to
    the debounce flag. *)
Lemma tick_debounce p (nl : Netlink) v :
  match observe p nl with
  | ReadFailed =>
      count_no_VFs (tick p nl v).2 = 0
      /\ noVFLog (tick p nl v).1.1 = noVFLog v
  | NoVFs =>
      count_no_VFs (tick p nl v).2 = (if noVFLog v then 1 else 0)
      /\ noVFLog (tick p nl v).1.1 = false
  | HasVFs =>
      count_no_VFs (tick p nl v).2 = 0
      /\ noVFLog (tick p nl v).1.1 = true
  end.
Proof.
  unfold observe.
  destruct (LinkByIndex nl (Index p)) as [link|err] eqn:H.
  2: { by rewrite (tick_read_failed _ _ _ _ H). }
  destruct (Vfs (Attrs link)) as [|vf0 rest] eqn:E.
  { rewrite (tick_no_VFs _ _ _ _ H E). destruct (noVFLog v) eqn:N; by split. }
  assert (Vfs (Attrs link) <> []) as Hne by (by rewrite E).
  destruct (Slave (Attrs link)) as [[s|ty]|] eqn:S.
  - destruct (isProtocolUp s) eqn:U.
    + destruct (tick_up _ _ v _ _ H Hne S U) as (v' & t & -> & _ & Ht & Hv).
      cbn [fst snd]. split; [|done].
      rewrite count_no_VFs_app, Ht. apply count_no_VFs_range_vfs.
    + destruct (tick_down _ _ v _ _ H Hne S U) as (v' & t & -> & _ & Ht & Hv).
      cbn [fst snd]. split; [|done].
      rewrite count_no_VFs_app, Ht. apply count_no_VFs_range_vfs.
  - unfold lacp.tick. by rewrite H, (length_eqb_0 _ Hne), S.
  - unfold lacp.tick. by rewrite H, (length_eqb_0 _ Hne), S.
Qed.

Lemma count_no_VFs_monitor (sigs : list (Signal BondSlave)) v :
  count_no_VFs (monitor sigs v).2 =
  runs (negb (noVFLog v)) (List.filter read_ok (ticks_run sigs)).
Proof.
  revert v. induction sigs as [|[p nl|p] rest IH]; intros v.
  - done.
  - rewrite monitor_tick. cbn [snd ticks_run List.filter].
    rewrite count_no_VFs_app, IH.
    pose proof (tick_debounce p nl v) as Ht.
    destruct (observe p nl); destruct Ht as [-> ->]; cbn [read_ok runs].
    + done.
    + by destruct (noVFLog v).
    + done.
  - cbn. unfold deferred. by destruct (endChan p).
Qed.

(** *** C8 *)

(** C8 (as amended).  On any schedule, the number of "no VFs" entries the
    goroutine emits is the number of maximal runs of empty-VF ticks among
    the ticks that read the attributes: a tick whose read fails emits no
    such entry, leaves the debounce flag as it is, and so does not end a
    run.  A tick that finds VFs sets the flag again. *)
Theorem C8_debounce :
  (forall sigs : list (Signal BondSlave),
     count_no_VFs (monitor sigs initial).2 =
     runs false (List.filter read_ok (ticks_run sigs)))
  /\ (forall p (nl : Netlink) v,
        observe p nl = NoVFs ->
        count_no_VFs (tick p nl v).2 = (if noVFLog v then 1 else 0)
        /\ noVFLog (tick p nl v).1.1 = false)
  /\ (forall p (nl : Netlink) v,
        observe p nl = HasVFs ->
        count_no_VFs (tick p nl v).2 = 0
        /\ noVFLog (tick p nl v).1.1 = true)
  /\ (forall p (nl : Netlink) v,
        observe p nl = ReadFailed ->
        count_no_VFs (tick p nl v).2 = 0
        /\ noVFLog (tick p nl v).1.1 = noVFLog v).
Proof.
  split; [intros sigs; apply (count_no_VFs_monitor sigs initial)|].
  split; [|split]; intros p nl v Ho;
    pose proof (tick_debounce p nl v) as Ht; rewrite Ho in Ht; apply Ht.
Qed.

(** *** C5 *)

(** C5 (as amended).  The goroutine leaves its loop on a schedule exactly
    when the schedule holds a cancellation; no tick makes it return.  A
    failed read is logged as a warning and the tick ends there.  An empty VF
    list ends the tick without any write; it is logged when the debounce
    flag is set and passed over in silence when it is not.  An absent slave
    record and a slave record of another type are logged as errors, without
    any write.  A write that fails is logged as an error for its VF, in
    either direction. *)
Theorem C5_errors_absorbed :
  (forall (sigs : list (Signal BondSlave)) v,
     (monitor sigs v).1 = None <-> existsb is_cancel sigs = true)
  /\ (forall p (nl : Netlink) v, (tick p nl v).1.2 <> Return)
  /\ (forall p (nl : Netlink) v err,
        LinkByIndex nl (Index p) = Failed err ->
        tick p nl v =
        (v, Breaks,
         [Log (log.Warn "failed to fetch interface"
                 [("interface", log.VString (Name p));
                  ("error", log.VError err)])]))
  /\ (forall p (nl : Netlink) v link,
        LinkByIndex nl (Index p) = Found link -> Vfs (Attrs link) = [] ->
        tick p nl v =
        if noVFLog v then (with_noVFLog false v, Breaks, [no_VFs_entry p])
        else (v, Breaks, []))
  /\ (forall p (nl : Netlink) v link,
        LinkByIndex nl (Index p) = Found link -> Vfs (Attrs link) <> [] ->
        Slave (Attrs link) = None ->
        tick p nl v =
        (with_noVFLog true v, Falls,
         [Log (log.Error "interface has no slave attribute"
                 [("interface", log.VString (Name p))])]))
  /\ (forall p (nl : Netlink) v link ty,
        LinkByIndex nl (Index p) = Found link -> Vfs (Attrs link) <> [] ->
        Slave (Attrs link) = Some (OtherSlave ty) ->
        tick p nl v =
        (with_noVFLog true v, Breaks,
         [Log (log.Error
                 "interface does not have BondSlave type on Slave attribute"
                 [("interface", log.VString (Name p))])]))
  /\ (forall p (nl : Netlink) v link s vf err,
        LinkByIndex nl (Index p) = Found link ->
        Slave (Attrs link) = Some (IsBondSlave s) ->
        vf ∈ Vfs (Attrs link) ->
        (isProtocolUp s = true ->
         LinkState vf = VF_LINK_STATE_DISABLE ->
         LinkSetVfState nl (netlink.Index (Attrs link)) (ID vf)
           VF_LINK_STATE_AUTO = Some err ->
         set_failed "interace" p vf err ∈ (tick p nl v).2)
        /\
        (isProtocolUp s = false ->
         LinkState vf = VF_LINK_STATE_AUTO ->
         LinkSetVfState nl (netlink.Index (Attrs link)) (ID vf)
           VF_LINK_STATE_DISABLE = Some err ->
         set_failed "interface" p vf err ∈ (tick p nl v).2)).
Proof.
  split; [apply monitor_exits_iff_cancelled|].
  split; [intros; apply tick_not_Return|].
  split; [intros; by apply tick_read_failed|].
  split; [intros; by eapply tick_no_VFs|].
  split.
  { intros p nl v link H Hne S. unfold lacp.tick.
    by rewrite H, (length_eqb_0 _ Hne), S. }
  split.
  { intros p nl v link ty H Hne S. unfold lacp.tick.
    by rewrite H, (length_eqb_0 _ Hne), S. }
  intros p nl v link s vf err H S Hin.
  assert (Vfs (Attrs link) <> []) as Hne.
  { intros E. rewrite E in Hin. by apply elem_of_nil in Hin. }
  split; intros U Hst Herr.
  - destruct (tick_up _ _ v _ _ H Hne S U) as (v' & t & -> & _).
    destruct (range_vfs_attempt VF_LINK_STATE_DISABLE VF_LINK_STATE_AUTO
                "auto" "interace" nl p (netlink.Index (Attrs link))
                _ _ Hin Hst) as (t1 & t2 & Heq).
    cbn [snd]. unfold bring_to_auto. rewrite Heq, Herr.
    rewrite !elem_of_app. right. right.
    apply elem_of_cons. right. apply elem_of_cons. by left.
  - destruct (tick_down _ _ v _ _ H Hne S U) as (v' & t & -> & _).
    destruct (range_vfs_attempt VF_LINK_STATE_AUTO VF_LINK_STATE_DISABLE
                "disable" "interface" nl p (netlink.Index (Attrs link))
                _ _ Hin Hst) as (t1 & t2 & Heq).
    cbn [snd]. unfold bring_to_disable. rewrite Heq, Herr.
    rewrite !elem_of_app. right. right.
    apply elem_of_cons. right. apply elem_of_cons. by left.
Qed.

(** *** C10 *)

(** C10.  For every VF the loop writes to, the tick emits the write, then
    the error entry if the write failed, then the entry "vf link state was
    set" whatever the write returned: a failed write is followed by both
    entries, for the same VF. *)
Theorem C10_was_set_logged_unconditionally (nl : Netlink) (p : PF)
    (v : LoopVars) (link : Link BondSlave) (s : BondSlave) (vf : VfInfo) :
  LinkByIndex nl (Index p) = Found link ->
  Slave (Attrs link) = Some (IsBondSlave s) ->
  vf ∈ Vfs (Attrs link) ->
  (isProtocolUp s = true -> LinkState vf = VF_LINK_STATE_DISABLE ->
   exists t1 t2,
     (tick p nl v).2 =
     t1 ++ SetVfState (netlink.Index (Attrs link)) (ID vf) VF_LINK_STATE_AUTO ::
           match LinkSetVfState nl (netlink.Index (Attrs link)) (ID vf)
                   VF_LINK_STATE_AUTO with
           | Some err => [set_failed "interace" p vf err]
           | None => []
           end ++ was_set "auto" p vf :: t2)
  /\
  (isProtocolUp s = false -> LinkState vf = VF_LINK_STATE_AUTO ->
   exists t1 t2,
     (tick p nl v).2 =
     t1 ++ SetVfState (netlink.Index (Attrs link)) (ID vf)
             VF_LINK_STATE_DISABLE ::
           match LinkSetVfState nl (netlink.Index (Attrs link)) (ID vf)
                   VF_LINK_STATE_DISABLE with
           | Some err => [set_failed "interface" p vf err]
           | None => []
           end ++ was_set "disable" p vf :: t2).
Proof.
  intros H S Hin.
  assert (Vfs (Attrs link) <> []) as Hne.
  { intros E. rewrite E in Hin. by apply elem_of_nil in Hin. }
  split; intros U Hst.
  - destruct (tick_up _ _ v _ _ H Hne S U) as (v' & t & -> & _).
    destruct (range_vfs_attempt VF_LINK_STATE_DISABLE VF_LINK_STATE_AUTO
                "auto" "interace" nl p (netlink.Index (Attrs link))
                _ _ Hin Hst) as (t1 & t2 & Heq).
    exists (t ++ t1), t2. cbn [snd]. unfold bring_to_auto.
    by rewrite Heq, app_assoc.
  - destruct (tick_down _ _ v _ _ H Hne S U) as (v' & t & -> & _).
    destruct (range_vfs_attempt VF_LINK_STATE_AUTO VF_LINK_STATE_DISABLE
                "disable" "interface" nl p (netlink.Index (Attrs link))
                _ _ Hin Hst) as (t1 & t2 & Heq).
    exists (t ++ t1), t2. cbn [snd]. unfold bring_to_disable.
    by rewrite Heq, app_assoc.
Qed.

End Properties.

(** ** The properties on the sample data *)

Lemma C1_witness :
  (LinkByIndex kernel_up (Index eth0) =
     Found (mkLink (sample_attrs "eth0" 3 OperUp 5 (lacp_slave true)
                      sample_vfs) (OtherLink "device"))
   /\ requests (lacp.tick synchronized fast eth0 kernel_up initial).2 =
      [(3, 0, VF_LINK_STATE_AUTO); (3, 3, VF_LINK_STATE_AUTO)]%Z)
  /\
  (LinkByIndex kernel_down (Index eth0) =
     Found (mkLink (sample_attrs "eth0" 3 OperUp 5 (lacp_slave false)
                      sample_vfs) (OtherLink "device"))
   /\ requests (lacp.tick synchronized fast eth0 kernel_down initial).2 =
      [(3, 2, VF_LINK_STATE_DISABLE)]%Z).
Proof.
  split; (split; [reflexivity|]).
  - apply (proj1 (C1_reconciliation synchronized fast kernel_up eth0 initial
                    _ (mkSampleSlave true true) eq_refl eq_refl)).
    reflexivity.
  - apply (proj2 (C1_reconciliation synchronized fast kernel_down eth0 initial
                    _ (mkSampleSlave false true) eq_refl eq_refl)).
    reflexivity.
Defined.

Lemma C4_witness :
  (LinkByIndex kernel_up (Index eth0) =
     Found (mkLink (sample_attrs "eth0" 3 OperUp 5 (lacp_slave true)
                      sample_vfs) (OtherLink "device"))
   /\ (Update kernel_up (Some eth0)).2 = Returns (eth0, false, None))
  /\
  (LinkByIndex kernel_eth0_down (Index eth0) =
     Found (mkLink (sample_attrs "eth0" 3 2 5 (lacp_slave false)
                      sample_vfs) (OtherLink "device"))
   /\ exists p',
        (Update kernel_eth0_down (Some eth0)).2 = Returns (p', true, None)
        /\ OperState p' = 2%Z /\ Monitoring p' = Monitoring eth0).
Proof.
  split; (split; [reflexivity|]).
  - apply (proj1 (C4_update_change_detection kernel_up eth0 _ eq_refl)).
    reflexivity.
  - destruct (proj2 (C4_update_change_detection kernel_eth0_down eth0 _
                       eq_refl)) as (p' & Hu & _ & _ & Ho & _ & Hm & _).
    + discriminate.
    + exists p'. exact (conj Hu (conj Ho Hm)).
Defined.

Lemma C6_witness :
  pf_invariant empty_runtime 3 eth0
  /\ let '(rt1, p1, _) := StartMonitoring empty_runtime 3 0 eth0 in
     let '(rt2, p2, t2) := StartMonitoring rt1 3 0 p1 in
     Monitoring p1 = true /\ rt2 = rt1 /\ p2 = p1
     /\ t2 = [Log (log.Debug "lacp monitoring has already started"
                     [("interface", log.VString "eth0")])]
     /\ length (live rt2 3) = 1.
Proof.
  split; [reflexivity|].
  exact (C6_start_twice empty_runtime 3 0 0 eth0 eq_refl).
Defined.

Lemma C7_witness :
  Monitoring eth0 = false
  /\ StopMonitoring empty_runtime 3 eth0
     = ([], Returns (empty_runtime, eth0)).
Proof.
  split; [reflexivity|].
  exact (C7_stop_when_not_monitoring empty_runtime 3 eth0 eq_refl).
Defined.

Lemma C9_witness :
  OperState eth1 = OperUp /\ MasterIndex eth1 <> 0%Z
  /\ LinkByIndex kernel_up (MasterIndex eth1) = Found br0
  /\ dyn br0 = OtherLink "bridge"
  /\ Inspect kernel_up eth1 = Panics interface_conversion.
Proof.
  split; [reflexivity|]. split; [discriminate|].
  split; [reflexivity|]. split; [reflexivity|].
  refine (proj1 (C9_inspect_panics_on_non_bond kernel_up eth1 br0 "bridge"
                   eq_refl _ eq_refl eq_refl)).
  discriminate.
Defined.

Lemma C10_witness :
  (mkVfInfo 0 VF_LINK_STATE_DISABLE ∈ sample_vfs
   /\ LinkSetVfState kernel_bad_vf0 3 0 VF_LINK_STATE_AUTO
      = Some "operation not supported"
   /\ exists t1 t2,
        (lacp.tick synchronized fast eth0 kernel_bad_vf0 initial).2 =
        t1 ++ [SetVfState 3 0 VF_LINK_STATE_AUTO;
               set_failed "interace" eth0 (mkVfInfo 0 VF_LINK_STATE_DISABLE)
                 "operation not supported";
               was_set "auto" eth0 (mkVfInfo 0 VF_LINK_STATE_DISABLE)]
           ++ t2)
  /\
  (mkVfInfo 2 VF_LINK_STATE_AUTO ∈ sample_vfs
   /\ LinkSetVfState kernel_bad_vf2 3 2 VF_LINK_STATE_DISABLE
      = Some "operation not supported"
   /\ exists t1 t2,
        (lacp.tick synchronized fast eth0 kernel_bad_vf2 initial).2 =
        t1 ++ [SetVfState 3 2 VF_LINK_STATE_DISABLE;
               set_failed "interface" eth0 (mkVfInfo 2 VF_LINK_STATE_AUTO)
                 "operation not supported";
               was_set "disable" eth0 (mkVfInfo 2 VF_LINK_STATE_AUTO)]
           ++ t2).
Proof.
  assert (mkVfInfo 0 VF_LINK_STATE_DISABLE ∈ sample_vfs) as H0
    by (apply list_elem_of_here).
  assert (mkVfInfo 2 VF_LINK_STATE_AUTO ∈ sample_vfs) as H2
    by (do 2 apply list_elem_of_further; apply list_elem_of_here).
  split; (split; [assumption|]); (split; [reflexivity|]).
  - exact (proj1 (C10_was_set_logged_unconditionally synchronized fast
                    kernel_bad_vf0 eth0 initial _ (mkSampleSlave true true)
                    _ eq_refl eq_refl H0) eq_refl eq_refl).
  - exact (proj2 (C10_was_set_logged_unconditionally synchronized fast
                    kernel_bad_vf2 eth0 initial _ (mkSampleSlave false true)
                    _ eq_refl eq_refl H2) eq_refl eq_refl).
Defined.

Lemma C5_witness :
  (lacp.monitor synchronized fast
     [Tick eth0 kernel_no_slave; Done eth0; Tick eth0 kernel_up] initial).1
  = None
  /\ (LinkByIndex unplugged (Index eth0) = Failed "Link not found"
      /\ lacp.tick synchronized fast eth0 unplugged initial =
         (initial, Breaks,
          [Log (log.Warn "failed to fetch interface"
                  [("interface", log.VString "eth0");
                   ("error", log.VError "Link not found")])]))
  /\ lacp.tick synchronized fast eth0 kernel_no_vfs initial =
     (with_noVFLog false initial, Breaks, [no_VFs_entry eth0])
  /\ lacp.tick synchronized fast eth0 kernel_no_slave initial =
     (initial, Falls,
      [Log (log.Error "interface has no slave attribute"
              [("interface", log.VString "eth0")])])
  /\ lacp.tick synchronized fast eth0 kernel_vrf_slave initial =
     (initial, Breaks,
      [Log (log.Error
              "interface does not have BondSlave type on Slave attribute"
              [("interface", log.VString "eth0")])])
  /\ set_failed "interace" eth0 (mkVfInfo 0 VF_LINK_STATE_DISABLE)
       "operation not supported"
     ∈ (lacp.tick synchronized fast eth0 kernel_bad_vf0 initial).2
  /\ set_failed "interface" eth0 (mkVfInfo 2 VF_LINK_STATE_AUTO)
       "operation not supported"
     ∈ (lacp.tick synchronized fast eth0 kernel_bad_vf2 initial).2.
Proof.
  destruct (C5_errors_absorbed synchronized fast)
    as (Hexit & _ & Hread & Hempty & Hnone & Hother & Hwrite).
  split; [apply Hexit; reflexivity|].
  split; [split; [reflexivity | apply Hread; reflexivity]|].
  split; [exact (Hempty eth0 kernel_no_vfs initial _ eq_refl eq_refl)|].
  split; [refine (Hnone eth0 kernel_no_slave initial _ eq_refl _ eq_refl);
          discriminate|].
  split; [refine (Hother eth0 kernel_vrf_slave initial _ "vrf" eq_refl _
                    eq_refl); discriminate|].
  split.
  - refine (proj1 (Hwrite eth0 kernel_bad_vf0 initial _
                     (mkSampleSlave true true)
                     (mkVfInfo 0 VF_LINK_STATE_DISABLE)
                     "operation not supported" eq_refl eq_refl _)
              eq_refl eq_refl eq_refl).
    apply list_elem_of_here.
  - refine (proj2 (Hwrite eth0 kernel_bad_vf2 initial _
                     (mkSampleSlave false true)
                     (mkVfInfo 2 VF_LINK_STATE_AUTO)
                     "operation not supported" eq_refl eq_refl _)
              eq_refl eq_refl eq_refl).
    do 2 apply list_elem_of_further. apply list_elem_of_here.
Defined.

(** Two ticks in a row find no VFs: the second one logs nothing at all. *)
Lemma C5_counterexample :
  observe eth0 kernel_no_vfs = NoVFs
  /\ lacp.tick synchronized fast eth0 kernel_no_vfs
       (with_noVFLog false initial)
     = (with_noVFLog false initial, Breaks, [])
  /\ lacp.monitor synchronized fast
       [Tick eth0 kernel_no_vfs; Tick eth0 kernel_no_vfs] initial
     = (Some (with_noVFLog false initial), [no_VFs_entry eth0]).
Proof. repeat split. Qed.

Lemma C8_witness :
  count_no_VFs
    (lacp.monitor synchronized fast empty_failed_empty initial).2 = 1
  /\ (observe eth0 kernel_no_vfs = NoVFs
      /\ count_no_VFs
           (lacp.tick synchronized fast eth0 kernel_no_vfs initial).2 = 1
      /\ count_no_VFs
           (lacp.tick synchronized fast eth0 kernel_no_vfs
              (with_noVFLog false initial)).2 = 0)
  /\ (observe eth0 kernel_up = HasVFs
      /\ noVFLog (lacp.tick synchronized fast eth0 kernel_up
                    (with_noVFLog false initial)).1.1 = true)
  /\ (observe eth0 unplugged = ReadFailed
      /\ noVFLog (lacp.tick synchronized fast eth0 unplugged
                    (with_noVFLog false initial)).1.1 = false).
Proof.
  destruct (C8_debounce synchronized fast)
    as (Hcount & Hempty & Hreset & Hfail).
  split; [apply Hcount|].
  split; [|split]; (split; [reflexivity|]).
  - split.
    + apply (Hempty eth0 kernel_no_vfs initial). reflexivity.
    + apply (Hempty eth0 kernel_no_vfs (with_noVFLog false initial)).
      reflexivity.
  - apply Hreset. reflexivity.
  - apply (Hfail eth0 unplugged (with_noVFLog false initial)). reflexivity.
Defined.

(** A failed read between two empty-VF ticks: two runs of consecutive
    ticks that read the attributes and find no VFs, one entry. *)
Lemma C8_counterexample :
  ticks_run empty_failed_empty = [NoVFs; ReadFailed; NoVFs]
  /\ runs false (ticks_run empty_failed_empty) = 2
  /\ count_no_VFs
       (lacp.monitor synchronized fast empty_failed_empty initial).2 = 1.
Proof. repeat split. Qed.

(** C2.  A notification for index 7, which is not a key of the registry:
    the lookup yields a nil pointer, [Update] dereferences it, and the
    goroutine panics after the debug entry. *)
Theorem C2_unknown_index_panics :
  registry !! 7%Z = None
  /\ on_index kernel_up 0 empty_runtime registry 7
     = ([Log (log.Debug "processing event" [("index", log.VInt 7)])],
        Panics nil_dereference).
Proof.
  assert (registry !! 7%Z = None) as H by reflexivity.
  split; [exact H|]. by apply on_index_unknown.
Qed.

(** C3.  [eth1] is up and its master index 9 resolves to the bridge [br0]:
    the third clause is violated, and [Inspect] panics where an error
    naming the clause is due. *)
Theorem C3_inspect_non_bond_master :
  OperState eth1 = OperUp
  /\ MasterIndex eth1 = 9%Z
  /\ LinkByIndex kernel_up 9 = Found br0
  /\ dyn br0 = OtherLink "bridge"
  /\ Inspect kernel_up eth1 = Panics interface_conversion.
Proof. repeat split. Qed.

(** ** Further properties of the package *)

Section Lifecycle.

(** *** Contexts and goroutines *)

Lemma is_done_cancelled (fuel : nat) (rt : Runtime) (c : nat) :
  c ∈ cancelled rt -> is_done fuel rt c = true.
Proof.
  intros H. destruct fuel; cbn [is_done]; by rewrite bool_decide_eq_true_2.
Qed.

Lemma pf_wf_live (rt rt' : Runtime) (k : Z) (p : PF) :
  live rt' k = live rt k -> pf_wf rt k p -> pf_wf rt' k p.
Proof. unfold pf_wf. intros ->. done. Qed.

Lemma live_StartMonitoring_other (rt : Runtime) (self k : Z) (ctx0 : nat)
    (p : PF) :
  k <> self -> live (StartMonitoring rt self ctx0 p).1.1 k = live rt k.
Proof.
  intros Hk. unfold StartMonitoring, live.
  destruct (Monitoring p); cbn; [done|].
  rewrite filter_app, filter_cons. cbn [owner].
  rewrite decide_False by congruence.
  by rewrite filter_nil, app_nil_r.
Qed.

Lemma StartMonitoring_wf (rt : Runtime) (self : Z) (ctx0 : nat) (p : PF) :
  pf_wf rt self p ->
  pf_wf (StartMonitoring rt self ctx0 p).1.1 self
        (StartMonitoring rt self ctx0 p).1.2
  /\ Monitoring (StartMonitoring rt self ctx0 p).1.2 = true.
Proof.
  intros Hwf. destruct (Monitoring p) eqn:H.
  - unfold StartMonitoring. rewrite H. by cbn.
  - pose proof (live_StartMonitoring rt self ctx0 p H) as Hl.
    unfold pf_wf in Hwf. rewrite H in Hwf. rewrite Hwf in Hl.
    unfold StartMonitoring in *. rewrite H in *. cbn in *.
    split; [|done]. unfold pf_wf. cbn. by eexists _, _.
Qed.

(** The receive of [StopMonitoring] meets the one goroutine of the PF. *)
Lemma join_only (rt : Runtime) (self : Z) (gs : list Goroutine)
    (g : Goroutine) :
  filter (fun g => owner g = self) gs = [g] ->
  is_done (next rt) rt (stop g) = true ->
  exists gs',
    join rt self gs = Some gs'
    /\ filter (fun g => owner g = self) gs' = []
    /\ forall k, k <> self ->
         filter (fun g => owner g = k) gs' = filter (fun g => owner g = k) gs.
Proof.
  intros Hf Hd. induction gs as [|g0 gs IH]; [done|].
  rewrite filter_cons in Hf. cbn [join].
  destruct (decide (owner g0 = self)) as [Ho|Ho].
  - injection Hf as -> Hf.
    rewrite bool_decide_eq_true_2, Hd by done. cbn [andb].
    exists gs. split; [done|]. split; [done|].
    intros k Hk. by rewrite filter_cons, decide_False by congruence.
  - rewrite bool_decide_eq_false_2 by done. cbn [andb].
    destruct (IH Hf) as (gs' & -> & Hs & Hk). cbn [option_map].
    exists (g0 :: gs'). split; [done|]. split.
    + by rewrite filter_cons, decide_False.
    + intros k Hne. by rewrite !filter_cons, Hk.
Qed.

(** The goroutine spawned last is the one joined when no other goroutine
    of the PF is live. *)
Lemma join_last (rt : Runtime) (self : Z) (gs : list Goroutine)
    (g : Goroutine) :
  filter (fun g => owner g = self) gs = [] -> owner g = self ->
  is_done (next rt) rt (stop g) = true ->
  join rt self (gs ++ [g]) = Some gs.
Proof.
  intros Hf Ho Hd. induction gs as [|g0 gs IH]; cbn [join app].
  - by rewrite bool_decide_eq_true_2, Hd.
  - rewrite filter_cons in Hf.
    destruct (decide (owner g0 = self)) as [?|Hne]; [done|].
    rewrite bool_decide_eq_false_2 by done. cbn [andb].
    by rewrite (IH Hf).
Qed.

Lemma StopMonitoring_wf (rt : Runtime) (self : Z) (p : PF) :
  pf_wf rt self p ->
  exists t rt' p',
    StopMonitoring rt self p = (t, Returns (rt', p'))
    /\ Monitoring p' = false
    /\ live rt' self = []
    /\ (forall k, k <> self -> live rt' k = live rt k)
    /\ Name p' = Name p /\ Index p' = Index p
    /\ OperState p' = OperState p /\ MasterIndex p' = MasterIndex p
    /\ pollingInterval p' = pollingInterval p.
Proof.
  unfold pf_wf, StopMonitoring. intros Hwf.
  destruct (Monitoring p) eqn:H; cbn [negb].
  2: { exists [], rt, p. by repeat split. }
  destruct Hwf as (c & ch & -> & -> & Hl).
  set (rt1 := {| next := next rt; parent := parent rt;
                 cancelled := {[c]} ∪ cancelled rt;
                 monitors := monitors rt |}).
  destruct (join_only rt1 self (monitors rt) (mkGoroutine self c) Hl)
    as (gs' & Hj & Hs & Hk).
  { apply is_done_cancelled. cbn. set_solver. }
  cbn [monitors rt1]. fold rt1. rewrite Hj.
  eexists _, _, _. split; [reflexivity|]. cbn. by repeat split.
Qed.

End Lifecycle.

Section RegistryProperties.
Context {BondSlave : Type}.
#[local] Abbreviation Netlink := (netlink.Netlink BondSlave).

(** *** One notification *)

Lemma Update_keeps_lifecycle (nl : Netlink) p t p' b e :
  Update nl (Some p) = (t, Returns (p', b, e)) ->
  Monitoring p' = Monitoring p /\ cancel p' = cancel p
  /\ endChan p' = endChan p /\ pollingInterval p' = pollingInterval p.
Proof.
  unfold Update. destruct (LinkByIndex nl (Index p)) as [link|err].
  - destruct (_ =? _)%Z; inversion 1; by subst.
  - inversion 1; by subst.
Qed.

Lemma pf_wf_same (rt : Runtime) (k : Z) (p p' : PF) :
  Monitoring p' = Monitoring p -> cancel p' = cancel p ->
  endChan p' = endChan p -> pf_wf rt k p -> pf_wf rt k p'.
Proof. unfold pf_wf. by intros -> -> ->. Qed.

Lemma registry_wf_insert (rt rt' : Runtime) (PFs : gmap Z PF) (index : Z)
    (p' : PF) :
  registry_wf rt PFs ->
  (forall k, k <> index -> live rt' k = live rt k) ->
  pf_wf rt' index p' ->
  registry_wf rt' (<[index := p']> PFs).
Proof.
  intros Hwf Hframe Hp k. destruct (decide (k = index)) as [->|Hk].
  - by rewrite lookup_insert_eq.
  - rewrite lookup_insert_ne by done. specialize (Hwf k).
    destruct (PFs !! k).
    + eapply pf_wf_live; [|done]. by apply Hframe.
    + by rewrite Hframe.
Qed.

Lemma on_index_wf (nl : Netlink) (ctx0 : nat) (rt rt' : Runtime)
    (PFs PFs' : gmap Z PF) (index : Z) t :
  registry_wf rt PFs ->
  on_index nl ctx0 rt PFs index = (t, Returns (rt', PFs')) ->
  registry_wf rt' PFs' /\ dom PFs' = dom PFs.
Proof.
  intros Hwf Hon. unfold on_index in Hon.
  destruct (PFs !! index) as [p|] eqn:Hp; [|by cbn in Hon].
  pose proof (Hwf index) as Hpwf. rewrite Hp in Hpwf.
  destruct (Update nl (Some p)) as [tu [[[p1 b] e]|r|]] eqn:HU;
    [|done|done].
  destruct (Update_keeps_lifecycle _ _ _ _ _ _ HU) as (Hm & Hc & He & _).
  assert (pf_wf rt index p1) as Hp1 by (by eapply pf_wf_same).
  assert (forall q, dom (<[index := q]> PFs) = dom PFs) as Hdom.
  { intros q. apply dom_insert_lookup_L. by rewrite Hp. }
  destruct e as [err|], b;
    try (inversion Hon; subst; split; [|by apply Hdom];
         by eapply registry_wf_insert).
  destruct (Inspect nl p1) as [[err|]|r|]; [| |done|done].
  - destruct (StopMonitoring_wf rt index p1 Hp1)
      as (ts & rt1 & p2 & Hs & Hm2 & Hl & Hframe & _).
    rewrite Hs in Hon. inversion Hon; subst. split; [|by apply Hdom].
    eapply registry_wf_insert; [done|done|].
    unfold pf_wf. by rewrite Hm2.
  - pose proof (StartMonitoring_wf rt index ctx0 p1 Hp1) as [Hs _].
    pose proof (live_StartMonitoring_other rt index) as Hframe.
    destruct (StartMonitoring rt index ctx0 p1) as [[rt1 p2] ts] eqn:HS.
    inversion Hon; subst. split; [|by apply Hdom].
    eapply registry_wf_insert; [done| |done].
    intros k Hk. specialize (Hframe k ctx0 p1 Hk). by rewrite HS in Hframe.
Qed.

(** *** The loops over the registry *)

Lemma stop_each_wf (ps : list (Z * PF)) (rt : Runtime) (PFs : gmap Z PF) :
  NoDup ps.*1 ->
  (forall k p, (k, p) ∈ ps -> PFs !! k = Some p) ->
  registry_wf rt PFs ->
  exists t rt' PFs',
    stop_each ps rt PFs = (t, Returns (rt', PFs'))
    /\ registry_wf rt' PFs'
    /\ dom PFs' = dom PFs
    /\ (forall k, k ∈ ps.*1 ->
          live rt' k = []
          /\ exists p', PFs' !! k = Some p' /\ Monitoring p' = false)
    /\ (forall k, k ∉ ps.*1 ->
          live rt' k = live rt k /\ PFs' !! k = PFs !! k).
Proof.
  revert rt PFs. induction ps as [|[k p] rest IH]; intros rt PFs Hnd Hin Hwf.
  { exists [], rt, PFs. split; [done|]. split; [done|]. split; [done|].
    split; [by intros k Hk%elem_of_nil | done]. }
  cbn [fmap list_fmap fst] in Hnd. apply NoDup_cons in Hnd as [Hk Hnd].
  assert (PFs !! k = Some p) as Hp by (apply Hin; left).
  pose proof (Hwf k) as Hpwf. rewrite Hp in Hpwf.
  destruct (StopMonitoring_wf rt k p Hpwf)
    as (ts & rt1 & p1 & Hs & Hm & Hl & Hframe & _).
  assert (registry_wf rt1 (<[k := p1]> PFs)) as Hwf1.
  { eapply registry_wf_insert; [done|done|]. unfold pf_wf. by rewrite Hm. }
  destruct (IH rt1 (<[k := p1]> PFs) Hnd) as
    (t & rt' & PFs' & Hst & Hwf' & Hdom & Hkeys & Hrest); [|done|].
  { intros j q Hj. rewrite lookup_insert_ne; [apply Hin; by right|].
    intros ->. apply Hk. apply list_elem_of_fmap. by exists (j, q). }
  cbn [stop_each]. rewrite Hs, Hst.
  eexists _, rt', PFs'. split; [reflexivity|]. split; [done|]. split.
  { rewrite Hdom. apply dom_insert_lookup_L. by rewrite Hp. }
  split.
  - intros j Hj. cbn [fmap list_fmap fst] in Hj.
    apply elem_of_cons in Hj as [->|Hj]; [|by apply Hkeys].
    destruct (Hrest k Hk) as [-> ->]. split; [done|].
    exists p1. by rewrite lookup_insert_eq.
  - intros j Hj. cbn [fmap list_fmap fst] in Hj.
    apply not_elem_of_cons in Hj as [Hjk Hj].
    destruct (Hrest j Hj) as [-> ->]. split; [by apply Hframe|].
    by rewrite lookup_insert_ne.
Qed.

Lemma no_live_no_monitors (rt : Runtime) :
  (forall k, live rt k = []) -> monitors rt = [].
Proof.
  intros H. destruct (monitors rt) as [|g gs] eqn:E; [done|].
  specialize (H (owner g)). unfold live in H. rewrite E in H.
  by rewrite filter_cons, decide_True in H.
Qed.

Lemma snapshot_keys (ps : list (Z * PF)) (PFs : gmap Z PF) :
  snapshot ps PFs ->
  NoDup ps.*1
  /\ (forall k p, (k, p) ∈ ps <-> PFs !! k = Some p)
  /\ (forall k, k ∈ ps.*1 <-> is_Some (PFs !! k)).
Proof.
  unfold snapshot. intros Hp. split; [|split].
  - rewrite Hp. apply NoDup_fst_map_to_list.
  - intros k p. rewrite Hp. apply elem_of_map_to_list.
  - intros k. rewrite Hp, list_elem_of_fmap. split.
    + intros ([j p] & -> & Hin). apply elem_of_map_to_list in Hin. by eexists.
    + intros [p Hk]. exists (k, p). split; [done|].
      by apply elem_of_map_to_list.
Qed.

Lemma Inspect_not_Blocks (nl : Netlink) (p : PF) : Inspect nl p <> Blocks.
Proof.
  unfold Inspect. destruct (negb _); [done|]. destruct (_ =? _)%Z; [done|].
  destruct (LinkByIndex _ _) as [bond|]; [|done].
  destruct (dyn bond); [|done]. by destruct (negb _).
Qed.

Lemma inspect_each_wf (nl : Netlink) (ctx0 : nat) (ps : list (Z * PF))
    (rt rt' : Runtime) (PFs PFs' : gmap Z PF) t :
  NoDup ps.*1 ->
  (forall k p, (k, p) ∈ ps -> PFs !! k = Some p) ->
  registry_wf rt PFs ->
  inspect_each nl ctx0 ps rt PFs = (t, Returns (rt', PFs')) ->
  registry_wf rt' PFs'
  /\ dom PFs' = dom PFs
  /\ (forall k p, (k, p) ∈ ps ->
        exists e p',
          Inspect nl p = Returns e /\ PFs' !! k = Some p'
          /\ match e with
             | None => Monitoring p' = true
             | Some _ => p' = p
             end)
  /\ (forall k, k ∉ ps.*1 ->
        live rt' k = live rt k /\ PFs' !! k = PFs !! k).
Proof.
  revert rt PFs t.
  induction ps as [|[k p] rest IH]; intros rt PFs t Hnd Hin Hwf Hrun.
  { cbn in Hrun. inversion Hrun; subst. split; [done|]. split; [done|].
    split; [by intros k p Hk%elem_of_nil | done]. }
  cbn [fmap list_fmap fst] in Hnd. apply NoDup_cons in Hnd as [Hk Hnd].
  assert (PFs !! k = Some p) as Hp by (apply Hin; left).
  pose proof (Hwf k) as Hpwf. rewrite Hp in Hpwf.
  cbn [inspect_each] in Hrun.
  destruct (Inspect nl p) as [[err|]|r|] eqn:HI; [| |done|done].
  - destruct (inspect_each nl ctx0 rest rt PFs) as [t1 o] eqn:Hrest.
    inversion Hrun; subst.
    destruct (IH rt PFs t1 Hnd) as (Hwf' & Hdom & Hkeys & Hframe);
      [intros; apply Hin; by right|done|done|].
    split; [done|]. split; [done|]. split.
    + intros j q Hj. apply elem_of_cons in Hj as [[= -> ->]|Hj];
        [|by apply Hkeys].
      exists (Some err), p. split; [done|]. split; [|done].
      destruct (Hframe k Hk) as [_ ->]. done.
    + intros j Hj. cbn [fmap list_fmap fst] in Hj.
      apply not_elem_of_cons in Hj as [_ Hj]. by apply Hframe.
  - pose proof (StartMonitoring_wf rt k ctx0 p Hpwf) as [Hs Hm].
    pose proof (live_StartMonitoring_other rt k) as Hfr.
    destruct (StartMonitoring rt k ctx0 p) as [[rt1 p1] ts] eqn:HS.
    cbn [fst snd] in Hs, Hm.
    destruct (inspect_each nl ctx0 rest rt1 (<[k:=p1]> PFs)) as [t1 o]
      eqn:Hrest.
    inversion Hrun; subst.
    assert (forall j, j <> k -> live rt1 j = live rt j) as Hfr1.
    { intros j Hj. specialize (Hfr j ctx0 p Hj). by rewrite HS in Hfr. }
    destruct (IH rt1 (<[k:=p1]> PFs) t1 Hnd) as (Hwf' & Hdom & Hkeys & Hframe);
      [|by eapply registry_wf_insert|done|].
    { intros j q Hj. rewrite lookup_insert_ne; [apply Hin; by right|].
      intros ->. apply Hk. apply list_elem_of_fmap. by exists (j, q). }
    split; [done|]. split.
    { rewrite Hdom. apply dom_insert_lookup_L. by rewrite Hp. }
    split.
    + intros j q Hj. apply elem_of_cons in Hj as [[= -> ->]|Hj];
        [|by apply Hkeys].
      exists None, p1. split; [done|]. split; [|done].
      destruct (Hframe k Hk) as [_ ->]. by rewrite lookup_insert_eq.
    + intros j Hj. cbn [fmap list_fmap fst] in Hj.
      apply not_elem_of_cons in Hj as [Hjk Hj].
      destruct (Hframe j Hj) as [-> ->]. split; [by apply Hfr1|].
      by rewrite lookup_insert_ne.
Qed.

Lemma inspect_each_panics (nl : Netlink) (ctx0 : nat) (ps : list (Z * PF))
    (rt : Runtime) (PFs : gmap Z PF) :
  (exists r, (inspect_each nl ctx0 ps rt PFs).2 = Panics r)
  <-> exists k p r, (k, p) ∈ ps /\ Inspect nl p = Panics r.
Proof.
  revert rt PFs. induction ps as [|[k p] rest IH]; intros rt PFs.
  { split; [by intros [r ?]|]. by intros (k & p & r & ?%elem_of_nil & _). }
  cbn [inspect_each].
  destruct (Inspect nl p) as [[err|]|r|] eqn:HI.
  - specialize (IH rt PFs).
    destruct (inspect_each nl ctx0 rest rt PFs) as [t o]. cbn [snd] in *.
    rewrite IH. split.
    + intros (j & q & r & Hj & Hq). exists j, q, r. split; [by right|done].
    + intros (j & q & r & Hj & Hq).
      apply elem_of_cons in Hj as [[= -> ->]|Hj]; [congruence|].
      by exists j, q, r.
  - destruct (StartMonitoring rt k ctx0 p) as [[rt1 p1] ts].
    specialize (IH rt1 (<[k:=p1]> PFs)).
    destruct (inspect_each nl ctx0 rest rt1 (<[k:=p1]> PFs)) as [t o].
    cbn [snd] in *. rewrite IH. split.
    + intros (j & q & r & Hj & Hq). exists j, q, r. split; [by right|done].
    + intros (j & q & r & Hj & Hq).
      apply elem_of_cons in Hj as [[= -> ->]|Hj]; [congruence|].
      by exists j, q, r.
  - split; [|by exists r]. intros _. exists k, p, r. split; [by left|done].
  - by destruct (Inspect_not_Blocks nl p).
Qed.

Lemma join_other (rt : Runtime) (self k : Z) (gs gs' : list Goroutine) :
  join rt self gs = Some gs' -> k <> self ->
  filter (fun g => owner g = k) gs' = filter (fun g => owner g = k) gs.
Proof.
  intros Hj Hk. revert gs' Hj. induction gs as [|g gs IH]; intros gs' Hj.
  { done. }
  cbn [join] in Hj.
  destruct (bool_decide (owner g = self) && _) eqn:Hg.
  - injection Hj as <-. apply andb_prop in Hg as [Ho%bool_decide_eq_true _].
    by rewrite filter_cons, decide_False by congruence.
  - destruct (join rt self gs) as [gs1|]; [|done]. injection Hj as <-.
    by rewrite !filter_cons, (IH gs1).
Qed.

Lemma Inspect_panic_reason (nl : Netlink) (p : PF) r :
  Inspect nl p = Panics r -> r = interface_conversion.
Proof.
  unfold Inspect. destruct (negb _); [done|]. destruct (_ =? _)%Z; [done|].
  destruct (LinkByIndex _ _) as [bond|]; [|done].
  destruct (dyn bond); [by destruct (negb _)|]. congruence.
Qed.

Lemma on_index_outcome (nl : Netlink) (ctx0 : nat) (rt : Runtime)
    (PFs : gmap Z PF) (index : Z) :
  registry_wf rt PFs -> is_Some (PFs !! index) ->
  (on_index nl ctx0 rt PFs index).2 <> Blocks
  /\ forall r, (on_index nl ctx0 rt PFs index).2 = Panics r ->
               r = interface_conversion.
Proof.
  intros Hwf [p Hp]. unfold on_index. rewrite Hp.
  pose proof (Hwf index) as Hpwf. rewrite Hp in Hpwf.
  destruct (Update nl (Some p)) as [tu o] eqn:HU.
  assert (exists p1 b e, o = Returns (p1, b, e)) as (p1 & b & e & ->).
  { unfold Update in HU. destruct (LinkByIndex nl (Index p)).
    - destruct (_ =? _)%Z; inversion HU; by eexists _, _, _.
    - inversion HU; by eexists _, _, _. }
  destruct (Update_keeps_lifecycle _ _ _ _ _ _ HU) as (Hm & Hc & He & _).
  assert (pf_wf rt index p1) as Hp1 by (by eapply pf_wf_same).
  destruct e as [err|], b; try (by split).
  destruct (Inspect nl p1) as [[err|]|r|] eqn:HI.
  - destruct (StopMonitoring_wf rt index p1 Hp1)
      as (ts & rt1 & p2 & -> & _). done.
  - by destruct (StartMonitoring rt index ctx0 p1) as [[rt1 p2] ts].
  - split; [done|]. intros r' [= <-]. by eapply Inspect_panic_reason.
  - by destruct (Inspect_not_Blocks nl p1).
Qed.

Lemma on_index_writes_back (nl : Netlink) (ctx0 : nat) (rt rt' : Runtime)
    (PFs PFs' : gmap Z PF) (index : Z) t :
  on_index nl ctx0 rt PFs index = (t, Returns (rt', PFs')) ->
  exists q, PFs' = <[index := q]> PFs.
Proof.
  unfold on_index. destruct (Update nl (PFs !! index)) as [tu [[[p1 b] e]|r|]];
    [|done|done].
  destruct e as [err|], b; try (inversion 1; by eexists).
  destruct (Inspect nl p1) as [[err|]|r|]; [| |done|done].
  - destruct (StopMonitoring rt index p1) as [ts [[rt1 p2]|r|]];
      inversion 1. by eexists.
  - destruct (StartMonitoring rt index ctx0 p1) as [[rt1 p2] ts].
    inversion 1. by eexists.
Qed.

Lemma stop_all (ps : list (Z * PF)) (rt : Runtime) (PFs : gmap Z PF) :
  snapshot ps PFs -> registry_wf rt PFs ->
  exists t rt' PFs',
    stop_each ps rt PFs = (t, Returns (rt', PFs'))
    /\ registry_wf rt' PFs'
    /\ monitors rt' = []
    /\ dom PFs' = dom PFs
    /\ forall k p', PFs' !! k = Some p' -> Monitoring p' = false.
Proof.
  intros Hsnap Hwf.
  destruct (snapshot_keys _ _ Hsnap) as (Hnd & Hin & Hkeys).
  destruct (stop_each_wf ps rt PFs Hnd) as
    (t & rt' & PFs' & Hst & Hwf' & Hdom & Hstopped & Hrest);
    [by intros k p ?%Hin|done|].
  exists t, rt', PFs'. split; [done|]. split; [done|].
  assert (forall k, is_Some (PFs' !! k) -> k ∈ ps.*1) as Hk'.
  { intros k Hk. apply Hkeys. by rewrite <- !elem_of_dom, <- Hdom, elem_of_dom. }
  split; [|split; [done|]].
  - apply no_live_no_monitors. intros k.
    destruct (PFs' !! k) as [p'|] eqn:Hp'.
    + by apply Hstopped, Hk'.
    + specialize (Hwf' k). by rewrite Hp' in Hwf'.
  - intros k p' Hp'. destruct (Hstopped k) as (_ & q & Hq & Hm);
      [by apply Hk'|]. congruence.
Qed.

(** *** Stopping, and starting then stopping *)

(** X3.  On a well-formed PF that is monitoring, [StopMonitoring] logs,
    calls the cancel function, receives from the channel and returns:
    the flag is cleared, the goroutine of the PF is gone, its context is
    cancelled, and the goroutines of the other PFs are the same. *)
Theorem StopMonitoring_joins (rt : Runtime) (self : Z) (p : PF) :
  pf_wf rt self p -> Monitoring p = true ->
  exists c ch rt' p',
    cancel p = Some c /\ endChan p = Some ch
    /\ StopMonitoring rt self p =
       ([Log (log.Info "stopping lacp monitoring"
                [("interface", log.VString (Name p))]);
         Cancel c; Recv ch],
        Returns (rt', p'))
    /\ Monitoring p' = false
    /\ live rt' self = []
    /\ c ∈ cancelled rt'
    /\ forall k, k <> self -> live rt' k = live rt k.
Proof.
  unfold pf_wf, StopMonitoring. intros Hwf H. rewrite H in *. cbn [negb].
  destruct Hwf as (c & ch & -> & -> & Hl).
  set (rt1 := {| next := next rt; parent := parent rt;
                 cancelled := {[c]} ∪ cancelled rt;
                 monitors := monitors rt |}).
  destruct (join_only rt1 self (monitors rt) (mkGoroutine self c) Hl)
    as (gs' & Hj & Hs & Hk).
  { apply is_done_cancelled. cbn. set_solver. }
  cbn [monitors rt1]. fold rt1. rewrite Hj.
  eexists c, ch, _, _. do 3 (split; [reflexivity|]). cbn.
  split; [done|]. split; [done|]. split; [set_solver|done].
Qed.

(** X4.  Starting a PF that is not monitoring and has no goroutine, then
    stopping it, returns: the list of live goroutines is the one from
    before, the flag is clear again, the cached attributes and the polling
    interval are untouched, and the context made for the goroutine is
    done. *)
Theorem Start_then_Stop (rt : Runtime) (self : Z) (ctx0 : nat) (p : PF) :
  Monitoring p = false -> live rt self = [] ->
  exists t rt2 p2,
    StopMonitoring (StartMonitoring rt self ctx0 p).1.1 self
                   (StartMonitoring rt self ctx0 p).1.2
    = (t, Returns (rt2, p2))
    /\ monitors rt2 = monitors rt
    /\ Monitoring p2 = false
    /\ Name p2 = Name p /\ Index p2 = Index p
    /\ OperState p2 = OperState p /\ MasterIndex p2 = MasterIndex p
    /\ pollingInterval p2 = pollingInterval p
    /\ is_done (next rt2) rt2 (next rt) = true.
Proof.
  intros H Hl. unfold StartMonitoring. rewrite H. cbn [fst snd].
  unfold StopMonitoring. cbn [Monitoring negb cancel endChan monitors].
  erewrite join_last; [|done|done|].
  2: { apply is_done_cancelled. cbn. set_solver. }
  eexists _, _, _. split; [reflexivity|].
  do 7 (split; [reflexivity|]).
  apply is_done_cancelled. cbn [cancelled]. set_solver.
Qed.

(** X5.  Starting or stopping the monitoring of one PF leaves the live
    goroutines of every other PF as they are. *)
Theorem lifecycle_leaves_others (rt : Runtime) (self k : Z) (ctx0 : nat)
    (p : PF) :
  k <> self ->
  live (StartMonitoring rt self ctx0 p).1.1 k = live rt k
  /\ forall t rt' p',
       StopMonitoring rt self p = (t, Returns (rt', p')) ->
       live rt' k = live rt k.
Proof.
  intros Hk. split; [by apply live_StartMonitoring_other|].
  intros t rt' p'. unfold StopMonitoring.
  destruct (negb (Monitoring p)); [by inversion 1|].
  destruct (cancel p) as [c|]; [|done].
  destruct (endChan p) as [ch|]; [|done].
  destruct (join _ self _) as [gs|] eqn:Hj; [|done].
  inversion 1; subst. unfold live. cbn. by eapply join_other.
Qed.

(** *** One notification, case by case *)

(** X6.  A notification whose case returns keeps the registry well formed
    and its key set as it was, and touches no PF but the one notified. *)
Theorem on_index_keeps_registry (nl : Netlink) (ctx0 : nat)
    (rt rt' : Runtime) (PFs PFs' : gmap Z PF) (index : Z) t :
  registry_wf rt PFs ->
  on_index nl ctx0 rt PFs index = (t, Returns (rt', PFs')) ->
  registry_wf rt' PFs'
  /\ dom PFs' = dom PFs
  /\ forall k, k <> index -> PFs' !! k = PFs !! k.
Proof.
  intros Hwf Hon. destruct (on_index_wf _ _ _ _ _ _ _ _ Hwf Hon) as [H1 H2].
  split; [done|]. split; [done|].
  destruct (on_index_writes_back _ _ _ _ _ _ _ _ Hon) as [q ->].
  intros k Hk. by rewrite lookup_insert_ne.
Qed.

(** X7.  A notification for a PF whose index no longer resolves: the case
    logs the failure (without its cause) and returns; the registry and the
    runtime are unchanged, so a goroutine monitoring the PF keeps
    running. *)
Theorem on_index_unresolvable (nl : Netlink) (ctx0 : nat) (rt : Runtime)
    (PFs : gmap Z PF) (index : Z) (p : PF) (err : string) :
  PFs !! index = Some p ->
  LinkByIndex nl (Index p) = Failed err ->
  on_index nl ctx0 rt PFs index =
  ([Log (log.Debug "processing event" [("index", log.VInt index)]);
    Log (log.Error "failed to update link"
           [("interface", log.VString (Name p))])],
   Returns (rt, PFs)).
Proof.
  intros Hp Hl. unfold on_index, Update. rewrite Hp, Hl. cbn.
  by rewrite insert_id.
Qed.

(** X8.  A notification that finds the operational state it has cached:
    nothing is inspected, started or stopped, whatever else changed on the
    link (its master, its name); the registry and the runtime are
    unchanged. *)
Theorem on_index_no_change (nl : Netlink) (ctx0 : nat) (rt : Runtime)
    (PFs : gmap Z PF) (index : Z) (p : PF) (link : Link BondSlave) :
  PFs !! index = Some p ->
  LinkByIndex nl (Index p) = Found link ->
  netlink.OperState (Attrs link) = OperState p ->
  on_index nl ctx0 rt PFs index =
  ([Log (log.Debug "processing event" [("index", log.VInt index)]);
    Log (log.Debug "link state"
           [("state", log.VInt (netlink.OperState (Attrs link)))]);
    Log (log.Debug "PF was not updated"
           [("interface", log.VString (netlink.Name (Attrs link)))])],
   Returns (rt, PFs)).
Proof.
  intros Hp Hl Hst. unfold on_index, Update.
  rewrite Hp, Hl, (proj2 (Z.eqb_eq _ _) Hst). cbn.
  by rewrite insert_id.
Qed.

(** X9.  A notification that finds a new operational state other than up:
    the cache takes the new attributes and the PF ends up not monitoring,
    with no live goroutine, whether it was monitoring before or not. *)
Theorem on_index_not_up_stops (nl : Netlink) (ctx0 : nat) (rt : Runtime)
    (PFs : gmap Z PF) (index : Z) (p : PF) (link : Link BondSlave) :
  PFs !! index = Some p ->
  pf_wf rt index p ->
  LinkByIndex nl (Index p) = Found link ->
  netlink.OperState (Attrs link) <> OperState p ->
  netlink.OperState (Attrs link) <> OperUp ->
  exists t rt' p',
    on_index nl ctx0 rt PFs index = (t, Returns (rt', <[index := p']> PFs))
    /\ Monitoring p' = false
    /\ live rt' index = []
    /\ OperState p' = netlink.OperState (Attrs link)
    /\ MasterIndex p' = netlink.MasterIndex (Attrs link)
    /\ Name p' = netlink.Name (Attrs link).
Proof.
  intros Hp Hwf Hl Hst Hup. unfold on_index, Update.
  rewrite Hp, Hl, (proj2 (Z.eqb_neq _ _) Hst).
  match goal with
  | |- context [Inspect nl ?q] => set (p1 := q)
  end.
  rewrite (Inspect_not_up nl p1) by done.
  destruct (StopMonitoring_wf rt index p1) as
    (ts & rt1 & p2 & -> & Hm & Hlive & _ & Hn & _ & Ho & Hmi & _).
  { by eapply pf_wf_same. }
  eexists _, rt1, p2. split; [reflexivity|]. by repeat split.
Qed.

(** X10.  A notification that finds the link newly up, with a master that
    resolves to a bond in mode 802.3ad: the PF ends up monitoring, with
    exactly one live goroutine. *)
Theorem on_index_eligible_starts (nl : Netlink) (ctx0 : nat) (rt : Runtime)
    (PFs : gmap Z PF) (index : Z) (p : PF) (link bond : Link BondSlave) :
  PFs !! index = Some p ->
  pf_wf rt index p ->
  LinkByIndex nl (Index p) = Found link ->
  netlink.OperState (Attrs link) <> OperState p ->
  netlink.OperState (Attrs link) = OperUp ->
  netlink.MasterIndex (Attrs link) <> 0%Z ->
  LinkByIndex nl (netlink.MasterIndex (Attrs link)) = Found bond ->
  dyn bond = Bond BOND_MODE_802_3AD ->
  exists t rt' p',
    on_index nl ctx0 rt PFs index = (t, Returns (rt', <[index := p']> PFs))
    /\ Monitoring p' = true
    /\ length (live rt' index) = 1
    /\ OperState p' = OperUp.
Proof.
  intros Hp Hwf Hl Hst Hup Hm Hb Hd. unfold on_index, Update.
  rewrite Hp, Hl, (proj2 (Z.eqb_neq _ _) Hst).
  match goal with
  | |- context [Inspect nl ?q] => set (p1 := q)
  end.
  assert (Inspect nl p1 = Returns None) as ->.
  { apply Inspect_success. split; [done|]. split; [done|]. by exists bond. }
  assert (pf_wf rt index p1) as Hp1 by (by eapply pf_wf_same).
  pose proof (StartMonitoring_wf rt index ctx0 p1 Hp1) as [Hs Hmon].
  assert (OperState (StartMonitoring rt index ctx0 p1).1.2 = OperUp) as Ho.
  { unfold StartMonitoring. by destruct (Monitoring p1). }
  destruct (StartMonitoring rt index ctx0 p1) as [[rt1 p2] ts].
  cbn [fst snd] in *.
  eexists _, rt1, p2. split; [reflexivity|]. split; [done|]. split; [|done].
  unfold pf_wf in Hs. rewrite Hmon in Hs.
  destruct Hs as (c & ch & _ & _ & ->). done.
Qed.

(** X11.  A notification for an index that [Indexes] lists, on a well
    formed registry, never blocks and never dereferences a nil pointer:
    when its case panics, it is the type assertion of [Inspect]. *)
Theorem on_index_listed_index (nl : Netlink) (ctx0 : nat) (rt : Runtime)
    (PFs : gmap Z PF) (index : Z) :
  registry_wf rt PFs ->
  index ∈ Indexes PFs ->
  (on_index nl ctx0 rt PFs index).2 <> Blocks
  /\ (on_index nl ctx0 rt PFs index).2 <> Panics nil_dereference
  /\ forall r, (on_index nl ctx0 rt PFs index).2 = Panics r ->
               r = interface_conversion.
Proof.
  intros Hwf Hin.
  assert (is_Some (PFs !! index)) as Hs.
  { unfold Indexes in Hin. apply list_elem_of_fmap in Hin as ([k q] & -> & Hq).
    apply elem_of_map_to_list in Hq. by eexists. }
  destruct (on_index_outcome nl ctx0 rt PFs index Hwf Hs) as [Hb Hr].
  split; [done|]. split; [|done].
  intros Hn. by specialize (Hr _ Hn).
Qed.

(** *** Start-up and shutdown *)

Lemma Inspect_panics_iff (nl : Netlink) (p : PF) :
  (exists r, Inspect nl p = Panics r) <->
  OperState p = OperUp /\ MasterIndex p <> 0%Z /\
  exists master ty, LinkByIndex nl (MasterIndex p) = Found master
                    /\ dyn master = OtherLink ty.
Proof.
  unfold Inspect.
  destruct (Z.eqb_spec (OperState p) OperUp) as [Hup|Hup]; cbn [negb].
  2: { split; [by intros [r ?]|]. by intros [? _]. }
  destruct (Z.eqb_spec (MasterIndex p) 0) as [Hm|Hm].
  { split; [by intros [r ?]|]. by intros (_ & ? & _). }
  destruct (LinkByIndex nl (MasterIndex p)) as [bond|err].
  2: { split; [by intros [r ?]|]. by intros (_ & _ & ? & ? & ? & _). }
  destruct (dyn bond) as [mode|ty] eqn:Hdyn.
  - split; [destruct (negb _); by intros [r ?]|].
    intros (_ & _ & b & ty & [= <-] & Hb). congruence.
  - split; [|by eexists]. intros _. repeat split; [done..|].
    by exists bond, ty.
Qed.

(** X12.  The start-up loop of [Start], in whatever order the [range]
    visits the PFs: when it returns, the registry is well formed with the
    same keys, and every PF either passed [Inspect] and is monitoring with
    exactly one live goroutine, or failed it and is as it was. *)
Theorem startup_monitors_eligible (nl : Netlink) (ctx0 : nat)
    (ps : list (Z * PF)) (rt rt' : Runtime) (PFs PFs' : gmap Z PF) t :
  snapshot ps PFs ->
  registry_wf rt PFs ->
  inspect_each nl ctx0 ps rt PFs = (t, Returns (rt', PFs')) ->
  registry_wf rt' PFs'
  /\ dom PFs' = dom PFs
  /\ forall k p, PFs !! k = Some p ->
       exists e p',
         Inspect nl p = Returns e /\ PFs' !! k = Some p'
         /\ match e with
            | None => Monitoring p' = true /\ length (live rt' k) = 1
            | Some _ => p' = p
            end.
Proof.
  intros Hsnap Hwf Hrun.
  destruct (snapshot_keys _ _ Hsnap) as (Hnd & Hin & _).
  destruct (inspect_each_wf nl ctx0 ps rt rt' PFs PFs' t Hnd)
    as (Hwf' & Hdom & Hkeys & _); [by intros k p ?%Hin|done|done|].
  split; [done|]. split; [done|].
  intros k p Hp. destruct (Hkeys k p) as (e & p' & HI & Hp' & He);
    [by apply Hin|].
  exists e, p'. split; [done|]. split; [done|].
  destruct e as [err|]; [done|]. split; [done|].
  specialize (Hwf' k). rewrite Hp' in Hwf'. unfold pf_wf in Hwf'.
  rewrite He in Hwf'. destruct Hwf' as (c & ch & _ & _ & ->). done.
Qed.

(** X13.  The start-up loop panics exactly when some PF of the registry is
    up and has a master that resolves to a link that is not a bond; it
    never blocks. *)
Theorem startup_panics_iff (nl : Netlink) (ctx0 : nat)
    (ps : list (Z * PF)) (rt : Runtime) (PFs : gmap Z PF) :
  snapshot ps PFs ->
  ((exists r, (inspect_each nl ctx0 ps rt PFs).2 = Panics r) <->
   exists k p master ty,
     PFs !! k = Some p /\ OperState p = OperUp /\ MasterIndex p <> 0%Z
     /\ LinkByIndex nl (MasterIndex p) = Found master
     /\ dyn master = OtherLink ty)
  /\ (inspect_each nl ctx0 ps rt PFs).2 <> Blocks.
Proof.
  intros Hsnap. destruct (snapshot_keys _ _ Hsnap) as (_ & Hin & _).
  split.
  - rewrite inspect_each_panics. split.
    + intros (k & p & r & Hk & HI).
      destruct (proj1 (Inspect_panics_iff nl p)) as (Hu & Hm & b & ty & Hb & Hd);
        [by exists r|].
      exists k, p, b, ty. split; [by apply Hin|done].
    + intros (k & p & b & ty & Hk & Hu & Hm & Hb & Hd).
      destruct (proj2 (Inspect_panics_iff nl p)) as [r Hr].
      { split; [done|]. split; [done|]. by exists b, ty. }
      exists k, p, r. split; [by apply Hin|done].
  - clear Hsnap Hin. revert rt PFs.
    induction ps as [|[k p] rest IH]; intros rt PFs; [done|].
    cbn [inspect_each].
    pose proof (Inspect_not_Blocks nl p) as Hnb.
    destruct (Inspect nl p) as [[err|]|r|]; [| |done|done].
    + specialize (IH rt PFs).
      by destruct (inspect_each nl ctx0 rest rt PFs).
    + destruct (StartMonitoring rt k ctx0 p) as [[rt1 p1] ts].
      specialize (IH rt1 (<[k:=p1]> PFs)).
      by destruct (inspect_each nl ctx0 rest rt1 (<[k:=p1]> PFs)).
Qed.

(** X14.  The shutdown case of [Start], in whatever order the [range]
    visits the PFs, on a well-formed registry: it returns, no monitoring
    goroutine is left, every PF has its flag cleared, and the key set is
    the same. *)
Theorem shutdown_complete (ps : list (Z * PF)) (rt : Runtime)
    (PFs : gmap Z PF) :
  snapshot ps PFs ->
  registry_wf rt PFs ->
  exists t rt' PFs',
    on_ctx_done ps rt PFs = (t, Returns (rt', PFs'))
    /\ monitors rt' = []
    /\ dom PFs' = dom PFs
    /\ forall k p', PFs' !! k = Some p' -> Monitoring p' = false.
Proof.
  intros Hsnap Hwf.
  destruct (stop_all ps rt PFs Hsnap Hwf)
    as (t & rt' & PFs' & Hs & _ & Hmon & Hdom & Hflags).
  unfold on_ctx_done. rewrite Hs. by eexists _, rt', PFs'.
Qed.

Lemma dispatch_wf (ctx0 : nat) (msgs : list (Message (BondSlave:=BondSlave)))
    (rt : Runtime) (PFs : gmap Z PF) :
  registry_wf rt PFs ->
  (dispatch ctx0 msgs rt PFs).2 <> Blocks
  /\ forall t rt' PFs',
       dispatch ctx0 msgs rt PFs = (t, Returns (rt', PFs')) ->
       registry_wf rt' PFs' /\ dom PFs' = dom PFs
       /\ (Cancelled ∈ msgs ->
           monitors rt' = []
           /\ forall k p', PFs' !! k = Some p' -> Monitoring p' = false).
Proof.
  revert rt PFs. induction msgs as [|[index nl|] rest IH]; intros rt PFs Hwf.
  - split; [done|]. intros t rt' PFs'. inversion 1; subst.
    split; [done|]. split; [done|]. by intros ?%elem_of_nil.
  - cbn [dispatch].
    destruct (on_index nl ctx0 rt PFs index) as [t1 [[rt1 PFs1]|r|]] eqn:Hon.
    + destruct (on_index_wf _ _ _ _ _ _ _ _ Hwf Hon) as [Hwf1 Hdom1].
      destruct (IH rt1 PFs1 Hwf1) as [Hnb Hret].
      destruct (dispatch ctx0 rest rt1 PFs1) as [t2 o] eqn:Hd.
      split; [done|]. intros t rt' PFs'. inversion 1; subst.
      destruct (Hret _ _ _ eq_refl) as (Hwf' & Hdom' & Hc).
      split; [done|]. split; [congruence|].
      intros Hin. apply elem_of_cons in Hin as [?|Hin]; [done|]. by apply Hc.
    + done.
    + assert (is_Some (PFs !! index)) as Hs.
      { destruct (PFs !! index) eqn:Hp; [by eexists|].
        unfold on_index in Hon. by rewrite Hp in Hon. }
      destruct (on_index_outcome nl ctx0 rt PFs index Hwf Hs) as [Hb _].
      by rewrite Hon in Hb.
  - cbn [dispatch]. unfold on_ctx_done.
    destruct (stop_all (map_to_list PFs) rt PFs)
      as (t & rt' & PFs' & Hs & Hwf' & Hmon & Hdom & Hflags);
      [by unfold snapshot|done|].
    rewrite Hs. split; [done|]. intros t0 rt0 PFs0. inversion 1; subst.
    by repeat split.
Qed.

(** X15.  The goroutine of [Start] on any schedule of notifications and
    cancellation, from a well-formed registry: it never blocks, and
    whenever it has not panicked the registry is well formed and has the
    keys it started with. *)
Theorem dispatch_keeps_registry (ctx0 : nat)
    (msgs : list (Message (BondSlave:=BondSlave)))
    (rt rt' : Runtime) (PFs PFs' : gmap Z PF) t :
  registry_wf rt PFs ->
  (dispatch ctx0 msgs rt PFs).2 <> Blocks
  /\ (dispatch ctx0 msgs rt PFs = (t, Returns (rt', PFs')) ->
      registry_wf rt' PFs' /\ dom PFs' = dom PFs).
Proof.
  intros Hwf. destruct (dispatch_wf ctx0 msgs rt PFs Hwf) as [Hb Hret].
  split; [done|]. intros Hd. by destruct (Hret _ _ _ Hd) as (? & ? & _).
Qed.

(** X16.  When the schedule holds a cancellation and the goroutine of
    [Start] returns, no monitoring goroutine is live and every PF has its
    flag cleared, whatever notifications were processed before. *)
Theorem dispatch_shutdown (ctx0 : nat)
    (msgs : list (Message (BondSlave:=BondSlave)))
    (rt rt' : Runtime) (PFs PFs' : gmap Z PF) t :
  registry_wf rt PFs ->
  Cancelled ∈ msgs ->
  dispatch ctx0 msgs rt PFs = (t, Returns (rt', PFs')) ->
  monitors rt' = []
  /\ forall k p', PFs' !! k = Some p' -> Monitoring p' = false.
Proof.
  intros Hwf Hc Hd. destruct (dispatch_wf ctx0 msgs rt PFs Hwf) as [_ Hret].
  destruct (Hret _ _ _ Hd) as (_ & _ & H). by apply H.
Qed.

(** *** Building the registry *)

Lemma New_range_keeps (nl : Netlink) (pi : Z) (nics : list string)
    (PFs : gmap Z PF) (k : Z) :
  is_Some (PFs !! k) -> is_Some ((New_range nl pi nics PFs).1 !! k).
Proof.
  revert PFs. induction nics as [|name rest IH]; intros PFs Hk; [done|].
  cbn [New_range]. destruct (LinkByName nl name) as [link|err].
  - specialize (IH (<[netlink.Index (Attrs link) :=
                       fresh_PF (Attrs link) pi]> PFs)).
    unfold fresh_PF in IH.
    destruct (New_range nl pi rest _) as [m t]. apply IH.
    rewrite lookup_insert_is_Some.
    destruct (decide (netlink.Index (Attrs link) = k)); auto.
  - specialize (IH PFs Hk). by destruct (New_range nl pi rest PFs).
Qed.

Lemma New_range_sound (nl : Netlink) (pi : Z) (nics : list string)
    (PFs : gmap Z PF) (k : Z) (p : PF) :
  (New_range nl pi nics PFs).1 !! k = Some p ->
  PFs !! k = Some p
  \/ exists name link,
       name ∈ nics /\ LinkByName nl name = Found link
       /\ k = netlink.Index (Attrs link) /\ p = fresh_PF (Attrs link) pi.
Proof.
  revert PFs. induction nics as [|name rest IH]; intros PFs; [by left|].
  cbn [New_range]. destruct (LinkByName nl name) as [link|err] eqn:Hl.
  - specialize (IH (<[netlink.Index (Attrs link) :=
                       fresh_PF (Attrs link) pi]> PFs)).
    unfold fresh_PF in IH at 1.
    destruct (New_range nl pi rest _) as [m t]. cbn [fst] in *.
    intros Hk. destruct (IH Hk) as [Hins|(n & l & Hn & Hr & Hkk & Hp)].
    + apply lookup_insert_Some in Hins as [[<- <-]|[_ Hold]]; [|by left].
      right. exists name, link. split; [by left|done].
    + right. exists n, l. split; [by right|done].
  - specialize (IH PFs). destruct (New_range nl pi rest PFs) as [m t].
    cbn [fst] in *. intros Hk.
    destruct (IH Hk) as [?|(n & l & Hn & Hr & Hkk & Hp)]; [by left|].
    right. exists n, l. split; [by right|done].
Qed.

Lemma New_range_complete (nl : Netlink) (pi : Z) (nics : list string)
    (PFs : gmap Z PF) (name : string) (link : Link BondSlave) :
  name ∈ nics -> LinkByName nl name = Found link ->
  is_Some ((New_range nl pi nics PFs).1 !! netlink.Index (Attrs link)).
Proof.
  revert PFs. induction nics as [|n rest IH]; intros PFs Hin Hl.
  { by apply elem_of_nil in Hin. }
  apply elem_of_cons in Hin as [<-|Hin].
  - cbn [New_range]. rewrite Hl.
    pose proof (New_range_keeps nl pi rest
                  (<[netlink.Index (Attrs link) :=
                       fresh_PF (Attrs link) pi]> PFs)
                  (netlink.Index (Attrs link))) as Hk.
    unfold fresh_PF in Hk.
    destruct (New_range nl pi rest _) as [m t]. apply Hk.
    by rewrite lookup_insert_eq.
  - cbn [New_range]. destruct (LinkByName nl n) as [l|err].
    + specialize (IH (<[netlink.Index (Attrs l) :=
                         fresh_PF (Attrs l) pi]> PFs) Hin Hl).
      unfold fresh_PF in IH. by destruct (New_range nl pi rest _).
    + specialize (IH PFs Hin Hl). by destruct (New_range nl pi rest PFs).
Qed.

(** X17.  Every PF of the registry [New] builds comes from a configured
    name that resolves: its key is the index of the link, its cached
    attributes are the ones of the link, it carries the polling interval
    given, it is not monitoring and holds no context or channel. *)
Theorem New_sound (nl : Netlink) (nics : list string) (pi : Z) (k : Z)
    (p : PF) :
  (New nl nics pi).1 !! k = Some p ->
  exists name link,
    name ∈ nics /\ LinkByName nl name = Found link
    /\ k = netlink.Index (Attrs link)
    /\ p = fresh_PF (Attrs link) pi
    /\ Index p = k /\ pollingInterval p = pi /\ Monitoring p = false.
Proof.
  intros Hk. destruct (New_range_sound nl pi nics ∅ k p Hk)
    as [Hempty|(name & link & Hn & Hl & -> & ->)].
  { by rewrite lookup_empty in Hempty. }
  by exists name, link.
Qed.

(** X18.  Every configured name that resolves has its link's index in the
    registry, and the registry is empty exactly when no configured name
    resolves (the case in which [main] exits). *)
Theorem New_resolves (nl : Netlink) (nics : list string) (pi : Z) :
  (forall name link,
     name ∈ nics -> LinkByName nl name = Found link ->
     is_Some ((New nl nics pi).1 !! netlink.Index (Attrs link)))
  /\ ((New nl nics pi).1 = ∅ <->
      forall name, name ∈ nics -> exists err, LinkByName nl name = Failed err).
Proof.
  split; [intros name link; apply New_range_complete|].
  split.
  - intros Hempty name Hin.
    destruct (LinkByName nl name) as [link|err] eqn:Hl; [|by exists err].
    pose proof (New_range_complete nl pi nics ∅ name link Hin Hl) as [q Hq].
    unfold New in Hempty. rewrite Hempty in Hq. by rewrite lookup_empty in Hq.
  - intros Hnone. apply map_eq. intros k. rewrite lookup_empty.
    destruct ((New nl nics pi).1 !! k) as [p|] eqn:Hk; [|done].
    destruct (New_range_sound nl pi nics ∅ k p Hk)
      as [Hempty|(name & link & Hn & Hl & _)].
    + by rewrite lookup_empty in Hempty.
    + destruct (Hnone name Hn) as [err He]. congruence.
Qed.

Lemma New_wf (nl : Netlink) (nics : list string) (pi : Z) (rt : Runtime) :
  monitors rt = [] -> registry_wf rt (New nl nics pi).1.
Proof.
  intros Hm k. assert (live rt k = []) as Hl by (unfold live; by rewrite Hm).
  destruct ((New nl nics pi).1 !! k) as [p|] eqn:Hk; [|done].
  destruct (New_range_sound nl pi nics ∅ k p Hk)
    as [Hempty|(name & link & _ & _ & _ & ->)].
  - by rewrite lookup_empty in Hempty.
  - done.
Qed.


(** X20.  From the registry [New] builds and a runtime without goroutines:
    when the start-up loop and then the goroutine of [Start], on a schedule
    that holds a cancellation, both return, no monitoring goroutine is
    left, every PF has its flag cleared, and the registry has the keys
    [New] gave it. *)
Theorem lifecycle_end_to_end (nl0 nl : Netlink) (nics : list string)
    (pi : Z) (ctx0 : nat) (ps : list (Z * PF))
    (msgs : list (Message (BondSlave:=BondSlave)))
    (rt rt1 rt2 : Runtime) (PFs1 PFs2 : gmap Z PF) t1 t2 :
  monitors rt = [] ->
  snapshot ps (New nl0 nics pi).1 ->
  inspect_each nl ctx0 ps rt (New nl0 nics pi).1 = (t1, Returns (rt1, PFs1)) ->
  Cancelled ∈ msgs ->
  dispatch ctx0 msgs rt1 PFs1 = (t2, Returns (rt2, PFs2)) ->
  monitors rt2 = []
  /\ dom PFs2 = dom (New nl0 nics pi).1
  /\ forall k p, PFs2 !! k = Some p -> Monitoring p = false.
Proof.
  intros Hm Hsnap Hstart Hc Hd.
  pose proof (New_wf nl0 nics pi rt Hm) as Hwf.
  destruct (snapshot_keys _ _ Hsnap) as (Hnd & Hin & _).
  destruct (inspect_each_wf nl ctx0 ps rt rt1 (New nl0 nics pi).1 PFs1 t1
              Hnd)
    as (Hwf1 & Hdom1 & _); [by intros k p ?%Hin|done|done|].
  destruct (dispatch_wf ctx0 msgs rt1 PFs1 Hwf1) as [_ Hret].
  destruct (Hret _ _ _ Hd) as (_ & Hdom2 & H).
  destruct (H Hc) as [Hmon Hflags].
  split; [done|]. split; [congruence|done].
Qed.

(** *** Inspect *)

(** X1.  [Inspect] returns a nil error exactly when the cached operational
    state is up, the cached master index is not zero, and the master index
    resolves to a bond whose mode is 802.3ad. *)
Theorem Inspect_eligible_iff (nl : Netlink) (p : PF) :
  Inspect nl p = Returns None <->
  OperState p = OperUp /\ MasterIndex p <> 0%Z /\
  exists bond, LinkByIndex nl (MasterIndex p) = Found bond
               /\ dyn bond = Bond BOND_MODE_802_3AD.
Proof. apply Inspect_success. Qed.

(** X2.  An error returned by [Inspect] names the first check that failed:
    the link is not up; or it is up without a master; or the master index
    does not resolve (the message carries the index and the cause); or the
    master is a bond in another mode (the message carries its name). *)
Theorem Inspect_error_cause (nl : Netlink) (p : PF) (e : string) :
  Inspect nl p = Returns (Some e) ->
  (OperState p <> OperUp /\ e = "link is not up")
  \/ (OperState p = OperUp /\ MasterIndex p = 0%Z
      /\ e = "no master interface associated")
  \/ (OperState p = OperUp /\ MasterIndex p <> 0%Z
      /\ exists err,
           LinkByIndex nl (MasterIndex p) = Failed err
           /\ e = "failed to fetch master interface with index "
                  +:+ pretty (MasterIndex p) +:+ ": " +:+ err)
  \/ (OperState p = OperUp /\ MasterIndex p <> 0%Z
      /\ exists bond mode,
           LinkByIndex nl (MasterIndex p) = Found bond
           /\ dyn bond = Bond mode /\ mode <> BOND_MODE_802_3AD
           /\ e = "bond " +:+ netlink.Name (Attrs bond)
                  +:+ " does not have mode 802.3ad").
Proof.
  unfold Inspect.
  destruct (Z.eqb_spec (OperState p) OperUp) as [Hup|Hup]; cbn [negb].
  2: { intros [= <-]. by left. }
  destruct (Z.eqb_spec (MasterIndex p) 0) as [Hm|Hm].
  { intros [= <-]. right. by left. }
  destruct (LinkByIndex nl (MasterIndex p)) as [bond|err].
  2: { intros [= <-]. right. right. left. split; [done|]. split; [done|].
       by exists err. }
  destruct (dyn bond) as [mode|ty] eqn:Hdyn; [|done].
  destruct (Z.eqb_spec mode BOND_MODE_802_3AD) as [->|Hmode]; cbn [negb];
    [done|].
  intros [= <-]. right. right. right. split; [done|]. split; [done|].
  by exists bond, mode.
Qed.

End RegistryProperties.

Section MonitoringProperties.
Context {BondSlave : Type}.
Variable isProtocolUp : BondSlave -> bool.
Variable IsFastRate : BondSlave -> bool.
#[local] Abbreviation Netlink := (netlink.Netlink BondSlave).
#[local] Abbreviation tick := (lacp.tick isProtocolUp IsFastRate).
#[local] Abbreviation monitor := (lacp.monitor isProtocolUp IsFastRate).

(** *** A tick that reaches the protocol check *)

Lemma tick_bond (nl : Netlink) p v link s :
  LinkByIndex nl (Index p) = Found link -> Vfs (Attrs link) <> [] ->
  Slave (Attrs link) = Some (IsBondSlave s) ->
  tick p nl v =
  if isProtocolUp s then
    (if lacpUp v then with_noVFLog true v
     else {| lacpUp := true; noVFLog := true;
             firstDownLog := firstDownLog v |},
     Falls,
     (if lacpUp v then []
      else lacp_up_entry p ::
           (if IsFastRate s then [] else [slow_rate_entry p]))
     ++ bring_to_auto nl p (netlink.Index (Attrs link)) (Vfs (Attrs link)))
  else
    (if lacpUp v || firstDownLog v then
       {| lacpUp := false; noVFLog := true; firstDownLog := false |}
     else with_noVFLog true v,
     Falls,
     (if lacpUp v || firstDownLog v then [lacp_down_entry p] else [])
     ++ bring_to_disable nl p (netlink.Index (Attrs link))
          (Vfs (Attrs link))).
Proof.
  intros H E S. unfold lacp.tick. rewrite H, (length_eqb_0 _ E), S.
  cbn [lacpUp with_noVFLog noVFLog firstDownLog].
  destruct (isProtocolUp s), (lacpUp v), (firstDownLog v), (IsFastRate s);
    reflexivity.
Qed.

Lemma tick_no_protocol (nl : Netlink) p v :
  protocol_seen isProtocolUp p nl = None ->
  exists v' f t,
    tick p nl v = (v', f, t)
    /\ lacpUp v' = lacpUp v /\ firstDownLog v' = firstDownLog v
    /\ (forall e, e ∈ t -> exists en, e = Log en
                                      /\ log.msg en <> "lacp is up"
                                      /\ log.msg en <> "lacp is down").
Proof.
  unfold protocol_seen, lacp.tick.
  destruct (LinkByIndex nl (Index p)) as [link|err].
  2: { intros _. eexists _, _, _. split; [reflexivity|].
       split; [done|]. split; [done|].
       intros e ->%list_elem_of_singleton. by eexists. }
  destruct (Vfs (Attrs link)) as [|vf0 rest].
  { intros _. cbn. destruct (noVFLog v).
    - eexists _, _, _. split; [reflexivity|]. split; [done|]. split; [done|].
      intros e ->%list_elem_of_singleton. by eexists.
    - eexists _, _, _. split; [reflexivity|]. split; [done|]. split; [done|].
      by intros e ?%elem_of_nil. }
  cbn [length Nat.eqb].
  destruct (Slave (Attrs link)) as [[s|ty]|]; [done| |]; intros _.
  - eexists _, _, _. split; [reflexivity|]. split; [done|]. split; [done|].
    intros e ->%list_elem_of_singleton. by eexists.
  - eexists _, _, _. split; [reflexivity|]. split; [done|]. split; [done|].
    intros e ->%list_elem_of_singleton. by eexists.
Qed.

Lemma lacp_entries_app t1 t2 :
  lacp_entries (t1 ++ t2) = lacp_entries t1 ++ lacp_entries t2.
Proof. apply omap_app. Qed.

Lemma lacp_entries_range_vfs from to label key (nl : Netlink) p link vfs :
  lacp_entries (range_vfs from to label key nl p link vfs) = [].
Proof.
  induction vfs as [|vf rest IH]; [done|].
  cbn [range_vfs].
  change (lacp_entries (?e :: ?t)) with (lacp_entries ([e] ++ t)).
  rewrite !lacp_entries_app, IH.
  destruct (LinkState vf =? from)%Z; [|done].
  by destruct (LinkSetVfState nl link (ID vf) to).
Qed.

Lemma lacp_entries_quiet (t : list Event) :
  (forall e, e ∈ t -> exists en, e = Log en
                                 /\ log.msg en <> "lacp is up"
                                 /\ log.msg en <> "lacp is down") ->
  lacp_entries t = [].
Proof.
  induction t as [|e t IH]; intros H; [done|].
  destruct (H e) as (en & -> & Hup & Hdown); [by left|].
  unfold lacp_entries. cbn [omap list_omap lacp_entry].
  destruct (log.level_eqb _ _).
  - rewrite (proj2 (String.eqb_neq _ _) Hup), (proj2 (String.eqb_neq _ _) Hdown).
    apply IH. intros e' He'. apply H. by right.
  - apply IH. intros e' He'. apply H. by right.
Qed.

Lemma tick_lacp_entries (nl : Netlink) p v :
  lacp_entries (tick p nl v).2 =
  match protocol_seen isProtocolUp p nl with
  | Some b => changes (last_logged v) [b]
  | None => []
  end
  /\ last_logged (tick p nl v).1.1 =
     match protocol_seen isProtocolUp p nl with
     | Some b => Some b
     | None => last_logged v
     end.
Proof.
  destruct (protocol_seen isProtocolUp p nl) as [b|] eqn:Hseen.
  - unfold protocol_seen in Hseen.
    destruct (LinkByIndex nl (Index p)) as [link|err] eqn:H; [|done].
    destruct (Vfs (Attrs link)) as [|vf0 rest] eqn:E; [done|].
    destruct (Slave (Attrs link)) as [[s|ty]|] eqn:S; [|done|done].
    injection Hseen as <-.
    rewrite (tick_bond nl p v link s H) by (by rewrite ?E).
    unfold last_logged, bring_to_auto, bring_to_disable.
    destruct v as [lu nv fd].
    cbn [lacpUp firstDownLog noVFLog with_noVFLog].
    destruct (isProtocolUp s), lu, fd, (IsFastRate s);
      cbn [fst snd orb lacpUp firstDownLog];
      rewrite lacp_entries_app, lacp_entries_range_vfs;
      split; reflexivity.
  - destruct (tick_no_protocol nl p v Hseen)
      as (v' & f & t & -> & Hu & Hf & Hq).
    cbn [fst snd]. split; [by apply lacp_entries_quiet|].
    unfold last_logged. by rewrite Hu, Hf.
Qed.

Lemma lacp_entries_monitor (sigs : list (Signal BondSlave)) v :
  lacp_entries (monitor sigs v).2 =
  changes (last_logged v) (protocol_run isProtocolUp sigs).
Proof.
  revert v. induction sigs as [|[p nl|p] rest IH]; intros v.
  - done.
  - rewrite monitor_tick. cbn [snd protocol_run].
    rewrite lacp_entries_app, IH.
    destruct (tick_lacp_entries nl p v) as [-> ->].
    destruct (protocol_seen isProtocolUp p nl) as [b|]; [|done].
    cbn [changes]. by rewrite app_nil_r.
  - cbn. unfold deferred. by destruct (endChan p).
Qed.

(** X22.  On any schedule, the entries "lacp is up" and "lacp is down" the
    goroutine emits are the protocol states its ticks see with the
    repetitions taken out: the first state seen is logged, every change of
    state is logged once, and a state that stays is not logged again.
    Ticks that do not reach the protocol check (failed read, no VFs, no
    bonding slave record) neither log a state nor count as a change. *)
Theorem lacp_entries_are_changes (sigs : list (Signal BondSlave)) :
  lacp_entries (monitor sigs initial).2 =
  changes None (protocol_run isProtocolUp sigs).
Proof. apply (lacp_entries_monitor sigs initial). Qed.

(** *** What a tick writes *)

Lemma requests_logs (t : list Event) :
  (forall e, e ∈ t -> exists en, e = Log en) -> requests t = [].
Proof.
  induction t as [|e t IH]; intros H; [done|].
  destruct (H e) as [en ->]; [by left|].
  unfold requests. cbn [omap list_omap request_of].
  apply IH. intros e' He'. apply H. by right.
Qed.

Lemma sends_logs (t : list Event) :
  (forall e, e ∈ t -> exists en, e = Log en) -> sends t = [].
Proof.
  induction t as [|e t IH]; intros H; [done|].
  destruct (H e) as [en ->]; [by left|].
  unfold sends. cbn [omap list_omap send_of].
  apply IH. intros e' He'. apply H. by right.
Qed.

Lemma sends_app t1 t2 : sends (t1 ++ t2) = sends t1 ++ sends t2.
Proof. apply omap_app. Qed.

Lemma sends_range_vfs from to label key (nl : Netlink) p link vfs :
  sends (range_vfs from to label key nl p link vfs) = [].
Proof.
  induction vfs as [|vf rest IH]; [done|].
  cbn [range_vfs].
  change (sends (?e :: ?t)) with (sends ([e] ++ t)).
  rewrite !sends_app, IH.
  destruct (LinkState vf =? from)%Z; [|done].
  by destruct (LinkSetVfState nl link (ID vf) to).
Qed.

Lemma protocol_seen_Some (nl : Netlink) p b :
  protocol_seen isProtocolUp p nl = Some b ->
  exists link s,
    LinkByIndex nl (Index p) = Found link /\ Vfs (Attrs link) <> []
    /\ Slave (Attrs link) = Some (IsBondSlave s) /\ isProtocolUp s = b.
Proof.
  unfold protocol_seen.
  destruct (LinkByIndex nl (Index p)) as [link|err]; [|done].
  destruct (Vfs (Attrs link)) as [|vf0 rest] eqn:E; [done|].
  destruct (Slave (Attrs link)) as [[s|ty]|] eqn:S; [|done|done].
  intros [= <-]. exists link, s. by rewrite E.
Qed.

Lemma sends_tick (nl : Netlink) p v : sends (tick p nl v).2 = [].
Proof.
  destruct (protocol_seen isProtocolUp p nl) as [b|] eqn:Hseen.
  - destruct (protocol_seen_Some nl p b Hseen) as (link & s & H & E & S & _).
    rewrite (tick_bond nl p v link s H E S).
    unfold bring_to_auto, bring_to_disable.
    destruct (isProtocolUp s), (lacpUp v), (firstDownLog v), (IsFastRate s);
      cbn [snd orb]; by rewrite sends_app, sends_range_vfs.
  - destruct (tick_no_protocol nl p v Hseen) as (v' & f & t & -> & _ & _ & Hq).
    apply sends_logs. intros e He. destruct (Hq e He) as (en & -> & _).
    by exists en.
Qed.

(** X23.  Whatever a tick finds, every VF state write it makes is for a VF
    of the list it has just read, on the link it has just read, and is
    either [auto] for a VF in state [disable] while the protocol is up, or
    [disable] for a VF in state [auto] while it is down.  A tick whose
    read fails, or that finds no slave record of bonding type, writes
    nothing. *)
Theorem tick_write_guard (nl : Netlink) (p : PF) (v : LoopVars)
    (l id st : Z) :
  (l, id, st) ∈ requests (tick p nl v).2 ->
  exists link s vf,
    LinkByIndex nl (Index p) = Found link
    /\ Slave (Attrs link) = Some (IsBondSlave s)
    /\ vf ∈ Vfs (Attrs link) /\ ID vf = id
    /\ l = netlink.Index (Attrs link)
    /\ ((isProtocolUp s = true /\ LinkState vf = VF_LINK_STATE_DISABLE
         /\ st = VF_LINK_STATE_AUTO)
        \/ (isProtocolUp s = false /\ LinkState vf = VF_LINK_STATE_AUTO
            /\ st = VF_LINK_STATE_DISABLE)).
Proof.
  destruct (protocol_seen isProtocolUp p nl) as [b|] eqn:Hseen.
  - destruct (protocol_seen_Some nl p b Hseen) as (link & s & H & E & S & Hb).
    rewrite (tick_bond nl p v link s H E S).
    unfold bring_to_auto, bring_to_disable.
    destruct (isProtocolUp s) eqn:U; cbn [snd]; rewrite requests_app,
      requests_range_vfs.
    + rewrite (requests_logs (if lacpUp v then _ else _)).
      2: { intros e He. destruct (lacpUp v); [by apply elem_of_nil in He|].
           apply elem_of_cons in He as [->|He]; [by eexists|].
           destruct (IsFastRate s); [by apply elem_of_nil in He|].
           apply list_elem_of_singleton in He as ->. by eexists. }
      cbn [app]. intros Hin. apply list_elem_of_fmap in Hin as (vf & [= -> -> ->] & Hvf).
      apply list_elem_of_filter in Hvf as [Hst Hvf].
      exists link, s, vf. repeat split; [done..|]. by left.
    + rewrite (requests_logs (if _ || _ then _ else _)).
      2: { intros e He. destruct (_ || _); [|by apply elem_of_nil in He].
           apply list_elem_of_singleton in He as ->. by eexists. }
      cbn [app]. intros Hin. apply list_elem_of_fmap in Hin as (vf & [= -> -> ->] & Hvf).
      apply list_elem_of_filter in Hvf as [Hst Hvf].
      exists link, s, vf. repeat split; [done..|]. by right.
  - destruct (tick_no_protocol nl p v Hseen) as (v' & f & t & -> & _ & _ & Hq).
    cbn [snd]. rewrite requests_logs; [by intros ?%elem_of_nil|].
    intros e He. destruct (Hq e He) as (en & -> & _). by exists en.
Qed.

(** *** The goroutine after cancellation *)

(** Once the goroutine has selected a cancellation it does nothing
    more: what follows the first cancellation on the schedule changes
    neither the trace nor the result. *)
Lemma monitor_after_cancel (sigs1 sigs2 : list (Signal BondSlave))
    (p : PF) (v : LoopVars) :
  monitor (sigs1 ++ Done p :: sigs2) v = monitor (sigs1 ++ [Done p]) v.
Proof.
  revert v. induction sigs1 as [|[q nl|q] rest IH]; intros v.
  - done.
  - cbn [app]. by rewrite !monitor_tick, IH.
  - done.
Qed.

(** X21.  The goroutine sends on the rendezvous channel only when it
    returns: on a schedule without cancellation the trace holds no send;
    with one, it holds exactly one send, on the channel of the PF at the
    time of the cancellation (none if that channel is nil, the send then
    never completing). *)
Theorem monitor_rendezvous (sigs : list (Signal BondSlave)) (v : LoopVars) :
  sends (monitor sigs v).2 =
  match first_cancel sigs with
  | Some p => match endChan p with Some ch => [ch] | None => [] end
  | None => []
  end
  /\ ((monitor sigs v).1 = None <-> is_Some (first_cancel sigs)).
Proof.
  revert v. induction sigs as [|[p nl|p] rest IH]; intros v.
  - split; [done|]. split; [done|]. by intros [? ?].
  - rewrite monitor_tick. cbn [fst snd first_cancel].
    rewrite sends_app, sends_tick. apply IH.
  - cbn. unfold deferred. split; [by destruct (endChan p)|].
    split; [by eexists|done].
Qed.

End MonitoringProperties.

(** *** The configuration *)

Section ConfigProperties.
Variable ReadFile : string -> string + string.
Variable Unmarshal : string -> config.Config -> config.Config * option string.

(** X24.  [ReadConfig] returns a configuration exactly when the file can be
    read, it unmarshals without error over the default (no interfaces,
    polling interval 1000), the interface list is not nil and the polling
    interval is positive; it then logs nothing.  In every other case the
    process exits with status 1 after exactly one error entry. *)
Theorem ReadConfig_loaded_iff (c : config.Config) :
  (config.ReadConfig ReadFile Unmarshal = ([], config.Loaded c) <->
   exists data,
     ReadFile config.path = inl data
     /\ Unmarshal data (config.mkConfig None 1000) = (c, None)
     /\ config.Interfaces c <> None
     /\ (0 < config.PollingInterval c)%Z)
  /\ (forall t r,
        config.ReadConfig ReadFile Unmarshal = (t, r) ->
        match r with
        | config.Loaded _ => t = []
        | config.Exit code =>
            code = 1%Z
            /\ exists en, t = [Log en] /\ log.level en = log.LevelError
        end).
Proof.
  unfold config.ReadConfig. split.
  - destruct (ReadFile config.path) as [data|err].
    2: { split; [done|]. by intros (data & ? & _). }
    destruct (Unmarshal data _) as [c' [err|]] eqn:HU.
    { split; [done|]. intros (d & [= <-] & Hu & _). congruence. }
    destruct (config.Interfaces c') as [nics|] eqn:Hi.
    2: { split; [done|]. intros (d & [= <-] & Hu & Hn & _). congruence. }
    destruct (Z.leb_spec (config.PollingInterval c') 0) as [Hle|Hlt].
    { split; [done|]. intros (d & [= <-] & Hu & _ & Hpos).
      assert (c = c') as -> by congruence. lia. }
    split.
    + intros [= <-]. exists data. by rewrite Hi.
    + intros (d & [= <-] & Hu & _). congruence.
  - intros t r. destruct (ReadFile config.path) as [data|err].
    2: { intros [= <- <-]. split; [done|]. by eexists. }
    destruct (Unmarshal data _) as [c' [err|]].
    { intros [= <- <-]. split; [done|]. by eexists. }
    destruct (config.Interfaces c') as [nics|].
    2: { intros [= <- <-]. split; [done|]. by eexists. }
    destruct (config.PollingInterval c' <=? 0)%Z.
    { intros [= <- <-]. split; [done|]. by eexists. }
    by intros [= <- <-].
Qed.

(** X25.  A configuration that [ReadConfig] returns, handed to [New] as
    [main] does: every PF of the registry has a positive polling interval.
    An interface list that is empty but not nil passes [ReadConfig] and
    gives an empty registry. *)
Theorem ReadConfig_then_New {BondSlave : Type}
    (nl : netlink.Netlink BondSlave) (c : config.Config)
    (nics : list string) t :
  config.ReadConfig ReadFile Unmarshal = (t, config.Loaded c) ->
  config.Interfaces c = Some nics ->
  (forall k p,
     (New nl nics (config.PollingInterval c)).1 !! k = Some p ->
     (0 < pollingInterval p)%Z)
  /\ (nics = [] -> (New nl nics (config.PollingInterval c)).1 = ∅).
Proof.
  intros Hr Hi. split; [|by intros ->].
  intros k p Hk.
  destruct (New_sound nl nics (config.PollingInterval c) k p Hk)
    as (_ & _ & _ & _ & _ & _ & _ & -> & _).
  unfold config.ReadConfig in Hr.
  destruct (ReadFile config.path) as [data|err]; [|done].
  destruct (Unmarshal data _) as [c' [err|]]; [done|].
  destruct (config.Interfaces c'); [|done].
  destruct (Z.leb_spec (config.PollingInterval c') 0); [done|].
  injection Hr as _ <-. done.
Qed.

End ConfigProperties.

(** ** The further properties on the sample data *)

Lemma registry_wf_singleton (rt : Runtime) (k : Z) (p : PF) :
  pf_wf rt k p -> (forall j, j <> k -> live rt j = []) ->
  registry_wf rt {[ k := p ]}.
Proof.
  intros Hp Hl j. destruct (decide (j = k)) as [->|Hj].
  - by rewrite lookup_singleton_eq.
  - rewrite lookup_singleton_ne by done. by apply Hl.
Qed.

Lemma registry_wf_sample : registry_wf empty_runtime registry.
Proof. by apply registry_wf_singleton. Qed.

Lemma registry_wf_down : registry_wf empty_runtime registry_down.
Proof. by apply registry_wf_singleton. Qed.

Lemma pf_wf_monitoring : pf_wf monitoring_runtime 3 eth0_monitoring.
Proof. by exists 1, 2. Qed.

Lemma registry_wf_monitoring :
  registry_wf monitoring_runtime registry_monitoring.
Proof.
  apply registry_wf_singleton; [apply pf_wf_monitoring|].
  intros j Hj. unfold monitoring_runtime.
  by rewrite live_StartMonitoring_other.
Qed.

Lemma snapshot_singleton (k : Z) (p : PF) : snapshot [(k, p)] {[ k := p ]}.
Proof. unfold snapshot. by rewrite map_to_list_singleton. Qed.

Lemma Inspect_eligible_iff_witness :
  (OperState eth0 = OperUp /\ MasterIndex eth0 <> 0%Z
   /\ LinkByIndex kernel_up (MasterIndex eth0) = Found bond0
   /\ dyn bond0 = Bond BOND_MODE_802_3AD)
  /\ Inspect kernel_up eth0 = Returns None.
Proof.
  split; [by repeat split|].
  apply (proj2 (Inspect_eligible_iff kernel_up eth0)).
  split; [reflexivity|]. split; [discriminate|].
  exists bond0. split; reflexivity.
Defined.

Lemma Inspect_error_cause_witness :
  Inspect unplugged eth0 =
  Returns (Some "failed to fetch master interface with index 5: Link not found")
  /\ exists err,
       LinkByIndex unplugged (MasterIndex eth0) = Failed err
       /\ "failed to fetch master interface with index 5: Link not found" =
          "failed to fetch master interface with index "
          +:+ pretty (MasterIndex eth0) +:+ ": " +:+ err.
Proof.
  split; [reflexivity|].
  destruct (Inspect_error_cause unplugged eth0 _ eq_refl)
    as [[H _]|[(_ & H & _)|[(_ & _ & H)|(_ & _ & b & m & H & _)]]].
  - by destruct H.
  - discriminate H.
  - exact H.
  - discriminate H.
Defined.

Lemma StopMonitoring_joins_witness :
  pf_wf monitoring_runtime 3 eth0_monitoring
  /\ Monitoring eth0_monitoring = true
  /\ exists c ch rt' p',
       cancel eth0_monitoring = Some c /\ endChan eth0_monitoring = Some ch
       /\ StopMonitoring monitoring_runtime 3 eth0_monitoring =
          ([Log (log.Info "stopping lacp monitoring"
                   [("interface", log.VString (Name eth0_monitoring))]);
            Cancel c; Recv ch],
           Returns (rt', p'))
       /\ Monitoring p' = false
       /\ live rt' 3 = []
       /\ c ∈ cancelled rt'
       /\ forall k, k <> 3%Z -> live rt' k = live monitoring_runtime k.
Proof.
  split; [apply pf_wf_monitoring|]. split; [reflexivity|].
  exact (StopMonitoring_joins monitoring_runtime 3 eth0_monitoring
           pf_wf_monitoring eq_refl).
Defined.

Lemma Start_then_Stop_witness :
  Monitoring eth0 = false /\ live empty_runtime 3 = []
  /\ exists t rt2 p2,
       StopMonitoring monitoring_runtime 3 eth0_monitoring
       = (t, Returns (rt2, p2))
       /\ monitors rt2 = monitors empty_runtime
       /\ Monitoring p2 = false
       /\ Name p2 = Name eth0 /\ Index p2 = Index eth0
       /\ OperState p2 = OperState eth0 /\ MasterIndex p2 = MasterIndex eth0
       /\ pollingInterval p2 = pollingInterval eth0
       /\ is_done (next rt2) rt2 (next empty_runtime) = true.
Proof.
  split; [reflexivity|]. split; [reflexivity|].
  exact (Start_then_Stop empty_runtime 3 0 eth0 eq_refl eq_refl).
Defined.

Lemma lifecycle_leaves_others_witness :
  (3 <> 4)%Z
  /\ live (StartMonitoring monitoring_runtime 4 0 eth1).1.1 3
     = live monitoring_runtime 3
  /\ forall t rt' p',
       StopMonitoring monitoring_runtime 4 eth1 = (t, Returns (rt', p')) ->
       live rt' 3 = live monitoring_runtime 3.
Proof.
  split; [discriminate|].
  apply (lifecycle_leaves_others monitoring_runtime 4 3 0 eth1).
  discriminate.
Defined.

Lemma on_index_keeps_registry_witness :
  registry_wf monitoring_runtime registry_monitoring
  /\ exists t rt' PFs',
       on_index kernel_eth0_down 0 monitoring_runtime registry_monitoring 3
       = (t, Returns (rt', PFs'))
       /\ registry_wf rt' PFs'
       /\ dom PFs' = dom registry_monitoring
       /\ forall k, k <> 3%Z -> PFs' !! k = registry_monitoring !! k.
Proof.
  split; [apply registry_wf_monitoring|].
  destruct (on_index kernel_eth0_down 0 monitoring_runtime
              registry_monitoring 3) as [t [[rt' PFs']|r|]] eqn:E.
  - exists t, rt', PFs'. split; [reflexivity|].
    exact (on_index_keeps_registry kernel_eth0_down 0 monitoring_runtime rt'
             registry_monitoring PFs' 3 t registry_wf_monitoring E).
  - vm_compute in E. discriminate E.
  - vm_compute in E. discriminate E.
Defined.

Lemma on_index_unresolvable_witness :
  registry !! 3%Z = Some eth0
  /\ LinkByIndex unplugged (Index eth0) = Failed "Link not found"
  /\ on_index unplugged 0 empty_runtime registry 3 =
     ([Log (log.Debug "processing event" [("index", log.VInt 3)]);
       Log (log.Error "failed to update link"
              [("interface", log.VString "eth0")])],
      Returns (empty_runtime, registry)).
Proof.
  split; [reflexivity|]. split; [reflexivity|].
  exact (on_index_unresolvable unplugged 0 empty_runtime registry 3 eth0
           "Link not found" eq_refl eq_refl).
Defined.

Lemma on_index_no_change_witness :
  registry !! 3%Z = Some eth0
  /\ netlink.OperState
       (sample_attrs "eth0" 3 OperUp 5 (lacp_slave true) sample_vfs)
     = OperState eth0
  /\ on_index kernel_up 0 empty_runtime registry 3 =
     ([Log (log.Debug "processing event" [("index", log.VInt 3)]);
       Log (log.Debug "link state" [("state", log.VInt 6)]);
       Log (log.Debug "PF was not updated"
              [("interface", log.VString "eth0")])],
      Returns (empty_runtime, registry)).
Proof.
  split; [reflexivity|]. split; [reflexivity|].
  exact (on_index_no_change kernel_up 0 empty_runtime registry 3 eth0
           _ eq_refl eq_refl eq_refl).
Defined.

Lemma on_index_not_up_stops_witness :
  registry_monitoring !! 3%Z = Some eth0_monitoring
  /\ pf_wf monitoring_runtime 3 eth0_monitoring
  /\ exists t rt' p',
       on_index kernel_eth0_down 0 monitoring_runtime registry_monitoring 3
       = (t, Returns (rt', <[3%Z := p']> registry_monitoring))
       /\ Monitoring p' = false
       /\ live rt' 3 = []
       /\ OperState p' = 2%Z
       /\ MasterIndex p' = 5%Z
       /\ Name p' = "eth0".
Proof.
  split; [reflexivity|]. split; [apply pf_wf_monitoring|].
  refine (on_index_not_up_stops kernel_eth0_down 0 monitoring_runtime
            registry_monitoring 3 eth0_monitoring _ eq_refl pf_wf_monitoring
            eq_refl _ _); discriminate.
Defined.

Lemma on_index_eligible_starts_witness :
  registry_down !! 3%Z = Some eth0_cached_down
  /\ LinkByIndex kernel_up 5 = Found bond0
  /\ dyn bond0 = Bond BOND_MODE_802_3AD
  /\ exists t rt' p',
       on_index kernel_up 0 empty_runtime registry_down 3
       = (t, Returns (rt', <[3%Z := p']> registry_down))
       /\ Monitoring p' = true
       /\ length (live rt' 3) = 1
       /\ OperState p' = OperUp.
Proof.
  split; [reflexivity|]. split; [reflexivity|]. split; [reflexivity|].
  refine (on_index_eligible_starts kernel_up 0 empty_runtime registry_down 3
            eth0_cached_down _ bond0 eq_refl _ eq_refl _ eq_refl _ eq_refl
            eq_refl); [reflexivity|discriminate|discriminate].
Defined.

Lemma on_index_listed_index_witness :
  registry_wf empty_runtime registry
  /\ 3%Z ∈ Indexes registry
  /\ (on_index kernel_up 0 empty_runtime registry 3).2 <> Blocks
  /\ (on_index kernel_up 0 empty_runtime registry 3).2
     <> Panics nil_dereference
  /\ forall r, (on_index kernel_up 0 empty_runtime registry 3).2 = Panics r ->
               r = interface_conversion.
Proof.
  assert (3%Z ∈ Indexes registry) as H.
  { unfold Indexes, registry. rewrite map_to_list_singleton.
    apply list_elem_of_here. }
  split; [apply registry_wf_sample|]. split; [exact H|].
  exact (on_index_listed_index kernel_up 0 empty_runtime registry 3
           registry_wf_sample H).
Defined.

Lemma startup_monitors_eligible_witness :
  snapshot [(3%Z, eth0)] registry
  /\ registry_wf empty_runtime registry
  /\ exists t rt' PFs',
       inspect_each kernel_up 0 [(3%Z, eth0)] empty_runtime registry
       = (t, Returns (rt', PFs'))
       /\ registry_wf rt' PFs'
       /\ dom PFs' = dom registry.
Proof.
  split; [apply snapshot_singleton|]. split; [apply registry_wf_sample|].
  destruct (inspect_each kernel_up 0 [(3%Z, eth0)] empty_runtime registry)
    as [t [[rt' PFs']|r|]] eqn:E.
  - exists t, rt', PFs'. split; [reflexivity|].
    destruct (startup_monitors_eligible kernel_up 0 [(3%Z, eth0)]
                empty_runtime rt' registry PFs' t (snapshot_singleton 3 eth0)
                registry_wf_sample E) as (H1 & H2 & _).
    exact (conj H1 H2).
  - vm_compute in E. discriminate E.
  - vm_compute in E. discriminate E.
Defined.

Lemma startup_panics_iff_witness :
  snapshot [(4%Z, eth1)] registry_eth1
  /\ (registry_eth1 !! 4%Z = Some eth1
      /\ LinkByIndex kernel_up (MasterIndex eth1) = Found br0
      /\ dyn br0 = OtherLink "bridge")
  /\ exists r,
       (inspect_each kernel_up 0 [(4%Z, eth1)] empty_runtime registry_eth1).2
       = Panics r.
Proof.
  split; [apply snapshot_singleton|]. split; [by repeat split|].
  apply (proj2 (proj1 (startup_panics_iff kernel_up 0 [(4%Z, eth1)]
                         empty_runtime registry_eth1
                         (snapshot_singleton 4 eth1)))).
  exists 4%Z, eth1, br0, "bridge".
  split; [reflexivity|]. split; [reflexivity|]. split; [discriminate|].
  split; reflexivity.
Defined.

Lemma shutdown_complete_witness :
  snapshot [(3%Z, eth0_monitoring)] registry_monitoring
  /\ registry_wf monitoring_runtime registry_monitoring
  /\ exists t rt' PFs',
       on_ctx_done [(3%Z, eth0_monitoring)] monitoring_runtime
         registry_monitoring = (t, Returns (rt', PFs'))
       /\ monitors rt' = []
       /\ dom PFs' = dom registry_monitoring
       /\ forall k p', PFs' !! k = Some p' -> Monitoring p' = false.
Proof.
  split; [apply snapshot_singleton|]. split; [apply registry_wf_monitoring|].
  exact (shutdown_complete [(3%Z, eth0_monitoring)] monitoring_runtime
           registry_monitoring (snapshot_singleton 3 eth0_monitoring)
           registry_wf_monitoring).
Defined.

Lemma dispatch_keeps_registry_witness :
  registry_wf monitoring_runtime registry_monitoring
  /\ exists t rt' PFs',
       dispatch 0 [Notification 3 kernel_eth0_down; Notification 3 kernel_up]
         monitoring_runtime registry_monitoring = (t, Returns (rt', PFs'))
       /\ registry_wf rt' PFs'
       /\ dom PFs' = dom registry_monitoring.
Proof.
  split; [apply registry_wf_monitoring|].
  destruct (dispatch 0 [Notification 3 kernel_eth0_down;
                        Notification 3 kernel_up]
              monitoring_runtime registry_monitoring)
    as [t [[rt' PFs']|r|]] eqn:E.
  - exists t, rt', PFs'. split; [reflexivity|].
    exact (proj2 (dispatch_keeps_registry 0 _ monitoring_runtime rt'
                    registry_monitoring PFs' t registry_wf_monitoring) E).
  - vm_compute in E. discriminate E.
  - vm_compute in E. discriminate E.
Defined.

Lemma dispatch_shutdown_witness :
  registry_wf empty_runtime registry_down
  /\ exists t rt' PFs',
       dispatch 0 [Notification 3 kernel_up; Cancelled; Notification 3 kernel_up]
         empty_runtime registry_down = (t, Returns (rt', PFs'))
       /\ monitors rt' = []
       /\ forall k p', PFs' !! k = Some p' -> Monitoring p' = false.
Proof.
  split; [apply registry_wf_down|].
  destruct (dispatch 0 [Notification 3 kernel_up; Cancelled;
                        Notification 3 kernel_up]
              empty_runtime registry_down)
    as [t [[rt' PFs']|r|]] eqn:E.
  - exists t, rt', PFs'. split; [reflexivity|].
    refine (dispatch_shutdown 0 _ empty_runtime rt' registry_down PFs' t
              registry_wf_down _ E).
    apply list_elem_of_further, list_elem_of_here.
  - vm_compute in E. discriminate E.
  - vm_compute in E. discriminate E.
Defined.

Lemma New_sound_witness :
  (New kernel_names ["nope"; "eth0"] 250).1 !! 3%Z
  = Some (fresh_PF (sample_attrs "eth0" 3 OperUp 5 (lacp_slave true)
                      sample_vfs) 250)
  /\ exists name link,
       name ∈ ["nope"; "eth0"] /\ LinkByName kernel_names name = Found link
       /\ 3%Z = netlink.Index (Attrs link)
       /\ fresh_PF (sample_attrs "eth0" 3 OperUp 5 (lacp_slave true)
                      sample_vfs) 250 = fresh_PF (Attrs link) 250
       /\ Index (fresh_PF (sample_attrs "eth0" 3 OperUp 5 (lacp_slave true)
                             sample_vfs) 250) = 3%Z
       /\ pollingInterval
            (fresh_PF (sample_attrs "eth0" 3 OperUp 5 (lacp_slave true)
                         sample_vfs) 250) = 250%Z
       /\ Monitoring
            (fresh_PF (sample_attrs "eth0" 3 OperUp 5 (lacp_slave true)
                         sample_vfs) 250) = false.
Proof.
  split; [reflexivity|].
  exact (New_sound kernel_names ["nope"; "eth0"] 250 3 _ eq_refl).
Defined.

Lemma New_resolves_witness :
  is_Some ((New kernel_names ["nope"; "eth0"] 250).1 !! 3%Z)
  /\ (New kernel_names ["nope"; "none"] 250).1 = ∅.
Proof.
  split.
  - refine (proj1 (New_resolves kernel_names ["nope"; "eth0"] 250)
              "eth0" _ _ eq_refl).
    apply list_elem_of_further, list_elem_of_here.
  - apply (proj2 (New_resolves kernel_names ["nope"; "none"] 250)).
    intros name Hin. exists "Link not found".
    apply elem_of_cons in Hin as [->|Hin]; [reflexivity|].
    apply list_elem_of_singleton in Hin as ->. reflexivity.
Defined.


Lemma lifecycle_end_to_end_witness :
  monitors empty_runtime = []
  /\ snapshot [(3%Z, eth0)] (New kernel_names ["eth0"] 1000).1
  /\ exists t1 rt1 PFs1 t2 rt2 PFs2,
       inspect_each kernel_up 0 [(3%Z, eth0)] empty_runtime
         (New kernel_names ["eth0"] 1000).1 = (t1, Returns (rt1, PFs1))
       /\ dispatch 0 [Notification 3 kernel_eth0_down; Cancelled] rt1 PFs1
          = (t2, Returns (rt2, PFs2))
       /\ monitors rt2 = []
       /\ dom PFs2 = dom (New kernel_names ["eth0"] 1000).1
       /\ forall k p, PFs2 !! k = Some p -> Monitoring p = false.
Proof.
  assert (snapshot [(3%Z, eth0)] (New kernel_names ["eth0"] 1000).1) as Hs
    by apply (snapshot_singleton 3 eth0).
  split; [reflexivity|]. split; [exact Hs|].
  destruct (inspect_each kernel_up 0 [(3%Z, eth0)] empty_runtime
              (New kernel_names ["eth0"] 1000).1)
    as [t1 [[rt1 PFs1]|r|]] eqn:E1.
  2, 3: vm_compute in E1; discriminate E1.
  destruct (dispatch 0 [Notification 3 kernel_eth0_down; Cancelled] rt1 PFs1)
    as [t2 [[rt2 PFs2]|r|]] eqn:E2.
  2, 3: vm_compute in E1; injection E1 as <- <- <-;
        vm_compute in E2; discriminate E2.
  exists t1, rt1, PFs1, t2, rt2, PFs2.
  split; [reflexivity|]. split; [exact E2|].
  refine (lifecycle_end_to_end kernel_names kernel_up ["eth0"] 1000 0
            [(3%Z, eth0)] _ empty_runtime rt1 rt2 PFs1 PFs2 t1 t2
            eq_refl Hs E1 _ E2).
  apply list_elem_of_further, list_elem_of_here.
Defined.

Lemma monitor_rendezvous_witness :
  sends (lacp.monitor synchronized fast
           [Tick eth0_monitoring kernel_up; Done eth0_monitoring;
            Tick eth0_monitoring kernel_up] initial).2 = [2]
  /\ (lacp.monitor synchronized fast
        [Tick eth0_monitoring kernel_up; Done eth0_monitoring;
         Tick eth0_monitoring kernel_up] initial).1 = None.
Proof.
  destruct (monitor_rendezvous synchronized fast
              [Tick eth0_monitoring kernel_up; Done eth0_monitoring;
               Tick eth0_monitoring kernel_up] initial) as [Hs Hx].
  split; [exact Hs|]. apply Hx. by eexists.
Defined.

Lemma tick_write_guard_witness :
  (3, 3, VF_LINK_STATE_AUTO)%Z
    ∈ requests (lacp.tick synchronized fast eth0 kernel_up initial).2
  /\ exists link s vf,
       LinkByIndex kernel_up (Index eth0) = Found link
       /\ Slave (Attrs link) = Some (IsBondSlave s)
       /\ vf ∈ Vfs (Attrs link) /\ ID vf = 3%Z
       /\ 3%Z = netlink.Index (Attrs link)
       /\ ((synchronized s = true /\ LinkState vf = VF_LINK_STATE_DISABLE
            /\ VF_LINK_STATE_AUTO = VF_LINK_STATE_AUTO)
           \/ (synchronized s = false /\ LinkState vf = VF_LINK_STATE_AUTO
               /\ VF_LINK_STATE_AUTO = VF_LINK_STATE_DISABLE)).
Proof.
  assert ((3, 3, VF_LINK_STATE_AUTO)%Z
            ∈ requests (lacp.tick synchronized fast eth0 kernel_up initial).2)
    as H by (apply list_elem_of_further, list_elem_of_here).
  split; [exact H|].
  exact (tick_write_guard synchronized fast kernel_up eth0 initial 3 3
           VF_LINK_STATE_AUTO H).
Defined.

Lemma ReadConfig_loaded_iff_witness :
  sample_ReadFile config.path = inl "interfaces: [eth0]"
  /\ config.ReadConfig sample_ReadFile sample_Unmarshal
     = ([], config.Loaded (config.mkConfig (Some ["eth0"]) 1000)).
Proof.
  split; [reflexivity|].
  apply (proj2 (proj1 (ReadConfig_loaded_iff sample_ReadFile sample_Unmarshal
                         (config.mkConfig (Some ["eth0"]) 1000)))).
  exists "interfaces: [eth0]".
  split; [reflexivity|]. split; [reflexivity|].
  split; [discriminate|reflexivity].
Defined.

Lemma ReadConfig_then_New_witness :
  config.ReadConfig sample_ReadFile sample_Unmarshal
  = ([], config.Loaded (config.mkConfig (Some ["eth0"]) 1000))
  /\ (forall k p,
        (New kernel_names ["eth0"] 1000).1 !! k = Some p ->
        (0 < pollingInterval p)%Z)
  /\ (["eth0"] = [] -> (New kernel_names ["eth0"] 1000).1 = ∅).
Proof.
  split; [reflexivity|].
  exact (ReadConfig_then_New sample_ReadFile sample_Unmarshal kernel_names
           (config.mkConfig (Some ["eth0"]) 1000) ["eth0"] [] eq_refl
           eq_refl).
Defined.
